(** * Smart Maintenance Priority: the prediction pipeline of the two
      Streamlit front ends, embedded and verified.

    [src/modern_app.py] is the bounded-numeric front end (number spinners,
    prediction card, dashboard); [src/streamlit_app.py] is the free-text
    front end (text boxes with placeholder text).  Both load a pickled
    classifier and scaler at start-up and fall back to a demo mode when
    loading fails.

    Modelling choices, all visible in the definitions below:
    - a Python [str] is the list of its Unicode code points ([pystr]);
    - the six sensor readings are rationals; the probabilities the
      classifier returns and the confidence computed from them are IEEE
      754 binary64 values ([double]), multiplied and compared as the
      standard says, NaN and the infinities included;
    - the scaler, the classifier, the builtin [float] and the random
      generator are external: they are fields of records the pipeline is
      given, and every call to them is recorded in a trace of events;
    - an exception is a value of [Exn]; only subclasses of [Exception] are
      modelled (interpreter-exit signals are not). *)

From Stdlib Require Import ZArith NArith QArith List String Ascii Lia Lqa.
From Stdlib Require Import Floats.SpecFloat.
From stdpp Require Import base option list gmap strings.

(* ===================================================================== *)
(** * Python strings *)
(* ===================================================================== *)

(** A [str] as the sequence of its code points. *)
Definition pystr : Type := list N.

(** An ASCII literal of the source as a [pystr]. *)
Definition py (s : string) : pystr :=
  map N_of_ascii (list_ascii_of_string s).

Coercion py : string >-> pystr.

(** [str.isspace] on one character: the code points CPython's
    [_PyUnicode_IsWhitespace] accepts, which are the ones [str.strip()]
    removes. *)
Definition isspace (c : N) : bool :=
  ((0x09 <=? c) && (c <=? 0x0D))%N
  || ((0x1C <=? c) && (c <=? 0x20))%N
  || (c =? 0x85)%N || (c =? 0xA0)%N || (c =? 0x1680)%N
  || ((0x2000 <=? c) && (c <=? 0x200A))%N
  || (c =? 0x2028)%N || (c =? 0x2029)%N || (c =? 0x202F)%N
  || (c =? 0x205F)%N || (c =? 0x3000)%N.

(** [s.lstrip()] *)
Fixpoint lstrip (s : pystr) : pystr :=
  match s with
  | c :: s' => if isspace c then lstrip s' else s
  | [] => []
  end.

(** [s.rstrip()] *)
Definition rstrip (s : pystr) : pystr := rev (lstrip (rev s)).

(** [s.strip()] *)
Definition strip (s : pystr) : pystr := rstrip (lstrip s).

(** [s.startswith(p)] *)
Fixpoint startswith (s p : pystr) {struct p} : bool :=
  match p, s with
  | [], _ => true
  | _ :: _, [] => false
  | a :: p', b :: s' => (b =? a)%N && startswith s' p'
  end.

(** [s == t] on strings *)
Definition str_eqb (s t : pystr) : bool := bool_decide (s = t).

(** [any(f(i) for i in l)] *)
Definition any {A} (f : A -> bool) (l : list A) : bool := existsb f l.

(* ===================================================================== *)
(** * Python values, exceptions and the external collaborators *)
(* ===================================================================== *)

(** What [model.predict(...)[0]] can be: an [int] or [np.integer] (also a
    [bool], which Python counts as the int 0 or 1), a [str] or [np.str_],
    or any other object, kept as the text [str()] gives for it. *)
Inductive PyVal : Type :=
| PyInt (z : Z)
| PyStr (s : pystr)
| PyOther (text : pystr).

(** [isinstance(v, (int, np.integer))] *)
Definition is_integer (v : PyVal) : bool :=
  match v with PyInt _ => true | _ => false end.

(** A raised exception, with the text [str(e)] gives. *)
Inductive Exn : Type := Exception (msg : pystr).

Definition exn_str (e : Exn) : pystr := match e with Exception m => m end.

(** A 2-D numpy array of numbers. *)
Definition matrix : Type := list (list Q).

(** An IEEE 754 binary64 value: numpy's [float64], Python's [float]. *)
Definition double : Type := spec_float.

(** A Python [int] as a double (exact below 2^53). *)
Definition double_of_Z (z : Z) : double := binary_normalize 53 1024 z 0 false.

(** [x * y] on doubles: the exact product rounded to nearest, ties to
    even. *)
Definition fmul (x y : double) : double := SFmul 53 1024 x y.

(** [x / y] on doubles. *)
Definition fdiv (x y : double) : double := SFdiv 53 1024 x y.

(** [x > y] on doubles; false when either is NaN. *)
Definition fgt (x y : double) : bool := SFltb y x.

(** The double nearest to [n/d], which is how a decimal literal such as
    [0.57] is read (for [n] and [d] below 2^53 in size). *)
Definition double_of_Q (q : Q) : double :=
  fdiv (double_of_Z (Qnum q)) (double_of_Z (Zpos (Qden q))).

(** What [model.predict_proba] returns: rows of doubles. *)
Definition proba_matrix : Type := list (list double).

(** The unpickled scaler: [scaler.transform(X)]. *)
Record Scaler : Type := { transform : matrix -> Exn + matrix }.

(** The unpickled classifier: [model.predict(X)] and, when the object has
    the attribute, [model.predict_proba(X)]. *)
Record Model : Type := {
  predict : matrix -> Exn + list PyVal;
  predict_proba : option (matrix -> Exn + proba_matrix)
}.

(** What [open(path, "rb")] followed by [pickle.load] gives for each of
    the two files. *)
Record Storage : Type := {
  model_pkl : Exn + Model;
  scaler_pkl : Exn + Scaler
}.

(** The rest of the environment of one button press: the builtin
    [float] on a string, and the next raw draw of numpy's generator. *)
Record Env : Type := {
  float : pystr -> Exn + Q;
  draw : nat
}.

(* ===================================================================== *)
(** * Effects: a trace of external calls with exceptions *)
(* ===================================================================== *)

Inductive Event : Type :=
| EvSleep (seconds : Z)
| EvTransform (x : matrix)
| EvPredict (x : matrix)
| EvPredictProba (x : matrix)
| EvRandomChoice (options : list pystr)
| UiWarning (msg : pystr)
| UiError (msg : pystr)
| UiSuccess (prediction : PyVal)
| UiInputSummary (fields : list pystr).

(** A computation: the events it performed, and an exception or a value. *)
Definition M (A : Type) : Type := list Event * (Exn + A).

Definition ret {A} (a : A) : M A := ([], inr a).

Definition raise {A} (e : Exn) : M A := ([], inl e).

Definition bind {A B} (m : M A) (k : A -> M B) : M B :=
  match m with
  | (t, inl e) => (t, inl e)
  | (t, inr a) => let '(t', r) := k a in (t ++ t', r)
  end.

(** [try: m  except: h] *)
Definition try_except {A} (m : M A) (h : Exn -> M A) : M A :=
  match m with
  | (t, inl e) => let '(t', r) := h e in (t ++ t', r)
  | (t, inr a) => (t, inr a)
  end.

Definition emit (ev : Event) : M unit := ([ev], inr tt).

(** An external call: the event, then whatever the callee did. *)
Definition call {A} (ev : Event) (r : Exn + A) : M A := ([ev], r).

Definition trace {A} (m : M A) : list Event := fst m.
Definition outcome {A} (m : M A) : Exn + A := snd m.

Declare Scope py_scope.
Delimit Scope py_scope with py.
Notation "x <- m ;; k" := (bind m (fun x => k))
  (at level 100, m at next level, right associativity) : py_scope.
Notation "m ;;; k" := (bind m (fun _ => k))
  (at level 100, right associativity) : py_scope.

Local Open Scope py_scope.

(** A pure builtin that may raise: no event. *)
Definition lift {A} (r : Exn + A) : M A := ([], r).

(** [a[0]] on a sequence; the texts of the exceptions the libraries
    raise are abbreviated throughout. *)
Definition getitem0 {A} (a : list A) : M A :=
  match a with
  | x :: _ => ret x
  | [] => raise (Exception "index 0 is out of bounds")
  end.

(** The builtin [max(iterable)]: the first item is the running maximum,
    and a later item replaces it only when it is strictly greater. *)
Fixpoint max_from (best : double) (items : list double) : double :=
  match items with
  | [] => best
  | x :: items' => max_from (if fgt x best then x else best) items'
  end.

Definition py_max (items : list double) : M double :=
  match items with
  | [] => raise (Exception "max() arg is an empty sequence")
  | x :: items' => ret (max_from x items')
  end.

(** The builtin [min(a, b)]: [b] only when it is strictly smaller. *)
Definition py_min (a b : Q) : Q := if Qle_bool a b then a else b.

(** [np.random.choice(options)]: the generator's draw picks the index. *)
Definition random_choice (env : Env) (options : list pystr) : M pystr :=
  call (EvRandomChoice options)
       (match options !! (draw env mod length options)%nat with
        | Some x => inr x
        | None => inl (Exception "a must be non-empty")
        end).

(** [d.get(k, dflt)] on a dict. *)
Definition dict_get `{Countable K} {V} (d : gmap K V) (k : K) (dflt : V) : V :=
  default dflt (d !! k).

(** The module-level names [model], [scaler] and [MODEL_LOADED] after the
    loading code has run.  [None] is the Python [None] in the structured
    front end and an unbound name in the free-text one. *)
Record Globals : Type := {
  g_model : option Model;
  g_scaler : option Scaler;
  MODEL_LOADED : bool
}.

(** Reading [model] or [scaler] for a method call.  After either
    start-up code the name is bound whenever [MODEL_LOADED] is true, so
    the failure here is never reached from a real start; its text stands
    for the AttributeError or NameError Python would raise. *)
Definition deref {A} (name : pystr) (o : option A) : M A :=
  match o with
  | Some a => ret a
  | None => raise (Exception (name ++ py " is not available"))
  end.

(** The three priority labels both front ends draw from in demo mode. *)
Definition priorities : list pystr := [py "Low"; py "Medium"; py "High"].

(** The PredictionResult of the data model, as each front end produces
    it: the label it displays and, where the front end computes one, the
    confidence percentage. *)
Record PredictionResult : Type := {
  label : PyVal;
  confidence : option double
}.

(* ===================================================================== *)
(** * src/modern_app.py: the bounded-numeric front end *)
(* ===================================================================== *)

Module ModernApp.

(** [load_models()], lines 148-157.  [st.cache_resource] keeps the
    triple for the life of the process, so it is computed once. *)
Definition load_models (fs : Storage) : M (option Model * option Scaler * bool) :=
  try_except
    (model <- lift (model_pkl fs) ;;
     scaler <- lift (scaler_pkl fs) ;;
     ret (Some model, Some scaler, true))
    (fun _ => ret (None, None, false)).

(** [model, scaler, MODEL_LOADED = load_models()], line 159. *)
Definition startup (fs : Storage) : M Globals :=
  r <- load_models fs ;;
  let '(model, scaler, loaded) := r in
  ret {| g_model := model; g_scaler := scaler; MODEL_LOADED := loaded |}.

(** [prediction_map], line 333. *)
Definition prediction_map : gmap Z pystr :=
  <[0%Z := py "Low"]> (<[1%Z := py "Medium"]> (<[2%Z := py "High"]> ∅)).

(** Lines 332-336: the class code as a label. *)
Definition label_of (prediction_raw : PyVal) : pystr :=
  match prediction_raw with
  | PyInt z => dict_get prediction_map z (py "Medium")
  | PyStr s => s
  | PyOther text => text
  end.

(** Lines 339-343: the confidence, behind a bare [except:].  The
    integers 100 and 85 (and 75, 80 below) enter as the doubles of the
    same value, which is what Python makes of them next to a float. *)
Definition confidence_of (model : Model) (input_scaled : matrix) : M double :=
  try_except
    (match predict_proba model with
     | None => raise (Exception "object has no attribute predict_proba")
     | Some proba =>
         rows <- call (EvPredictProba input_scaled) (proba input_scaled) ;;
         probabilities <- getitem0 rows ;;
         m <- py_max probabilities ;;
         ret (fmul m (double_of_Z 100))
     end)
    (fun _ => ret (double_of_Z 85)).

(** Line 325: the feature row. *)
Definition input_data (temp vibration pressure inspection downtime technician : Q)
  : matrix :=
  [[temp; vibration; pressure; inspection; downtime; technician]].

(** Lines 325-346: from the six readings to [(prediction, confidence)]. *)
Definition predict_stage (g : Globals) (env : Env)
    (temp vibration pressure inspection downtime technician : Q)
  : M (pystr * double) :=
  let input_data :=
    input_data temp vibration pressure inspection downtime technician in
  if MODEL_LOADED g then
    scaler <- deref "scaler" (g_scaler g) ;;
    input_scaled <- call (EvTransform input_data) (transform scaler input_data) ;;
    model <- deref "model" (g_model g) ;;
    predictions <- call (EvPredict input_scaled) (predict model input_scaled) ;;
    prediction_raw <- getitem0 predictions ;;
    let prediction := label_of prediction_raw in
    confidence <- confidence_of model input_scaled ;;
    ret (prediction, confidence)
  else
    prediction <- random_choice env priorities ;;
    ret (prediction, double_of_Z 75).

(** [recommendations], lines 351-355. *)
Definition recommendations : gmap pystr pystr :=
  <[py "High" := py "Immediate action required"]>
  (<[py "Medium" := py "Schedule maintenance"]>
  (<[py "Low" := py "Monitor regularly"]> ∅)).

(** Line 361: [recommendations.get(prediction, 'Monitor regularly')]. *)
Definition recommendation (prediction : pystr) : pystr :=
  dict_get recommendations prediction (py "Monitor regularly").

(** Line 385. *)
Definition risk_score (prediction : pystr) : Z :=
  if str_eqb prediction (py "High") then 85
  else if str_eqb prediction (py "Medium") then 55
  else 25.

(** What the page shows after a prediction: the card (lines 357-363),
    the three metrics (lines 370-390) and the radar values (lines
    399-406).  The CSS class of the card and the number formatting are
    left out. *)
Record Dashboard : Type := {
  card_priority : pystr;
  card_confidence : double;
  card_recommendation : pystr;
  priority_delta : pystr;
  confidence_delta : pystr;
  metric_risk_score : Z;
  risk_delta : pystr;
  normalized_values : list Q
}.

Definition render (prediction : pystr) (confidence : double)
    (temp vibration pressure inspection downtime technician : Q) : Dashboard :=
  let risk := risk_score prediction in
  {| card_priority := prediction;
     card_confidence := confidence;
     card_recommendation := recommendation prediction;
     priority_delta :=
       if str_eqb prediction (py "High") then py "Critical" else py "Normal";
     confidence_delta :=
       if fgt confidence (double_of_Z 80) then py "High Confidence"
       else py "Medium Confidence";
     metric_risk_score := risk;
     risk_delta := if (70 <? risk)%Z then py "High Risk" else py "Low Risk";
     normalized_values :=
       [py_min (temp / 100) 1; py_min (vibration / 5) 1;
        py_min (pressure / 20) 1; py_min (inspection / 60) 1;
        py_min (downtime / 5000) 1; py_min (technician / 100) 1]%Q |}.

(** Lines 321-447: one press of the predict button. *)
Definition on_predict (g : Globals) (env : Env)
    (temp vibration pressure inspection downtime technician : Q)
  : M Dashboard :=
  emit (EvSleep 2) ;;;
  r <- predict_stage g env temp vibration pressure inspection downtime technician ;;
  let '(prediction, confidence) := r in
  ret (render prediction confidence
         temp vibration pressure inspection downtime technician).

(** The PredictionResult of one press. *)
Definition prediction_result (g : Globals) (env : Env)
    (temp vibration pressure inspection downtime technician : Q)
  : Exn + PredictionResult :=
  match outcome (predict_stage g env temp vibration pressure inspection
                   downtime technician) with
  | inl e => inl e
  | inr (prediction, c) =>
      inr {| label := PyStr prediction; confidence := Some c |}
  end.

End ModernApp.

(* ===================================================================== *)
(** * src/streamlit_app.py: the free-text front end *)
(* ===================================================================== *)

Module StreamlitApp.

Definition demo_warning : pystr :=
  [0x26A0; 0xFE0F]%N ++ py " Running in Demo Mode (Model not loaded)".

(** Lines 6-14: the loading code at the top of the script. *)
Definition startup (fs : Storage) : M Globals :=
  match model_pkl fs with
  | inr model =>
      match scaler_pkl fs with
      | inr scaler =>
          ret {| g_model := Some model; g_scaler := Some scaler;
                 MODEL_LOADED := true |}
      | inl _ =>
          emit (UiWarning demo_warning) ;;;
          ret {| g_model := Some model; g_scaler := None;
                 MODEL_LOADED := false |}
      end
  | inl _ =>
      emit (UiWarning demo_warning) ;;;
      ret {| g_model := None; g_scaler := None; MODEL_LOADED := false |}
  end.

(** Lines 23-28: the text each box holds until the user types. *)
Definition placeholders : list pystr :=
  [py "e.g., 75"; py "e.g., 1.5"; py "e.g., 5.0";
   py "e.g., 30"; py "e.g., 1000"; py "e.g., 85"].

(** Line 34, the test applied to each field. *)
Definition unfilled (i : pystr) : bool :=
  startswith (strip i) (py "e.g.") || str_eqb (strip i) (py "").

Definition fill_in_message : pystr :=
  [0x2757]%N ++ py " Please fill in all the input fields correctly.".

(** Lines 37-44: from the six texts to the prediction. *)
Definition predict_stage (g : Globals) (env : Env)
    (temp vibration pressure inspection downtime technician : pystr)
  : M PyVal :=
  f_temp <- lift (float env temp) ;;
  f_vibration <- lift (float env vibration) ;;
  f_pressure <- lift (float env pressure) ;;
  f_inspection <- lift (float env inspection) ;;
  f_downtime <- lift (float env downtime) ;;
  f_technician <- lift (float env technician) ;;
  let input_data :=
    [[f_temp; f_vibration; f_pressure; f_inspection; f_downtime; f_technician]] in
  if MODEL_LOADED g then
    scaler <- deref "scaler" (g_scaler g) ;;
    input_scaled <- call (EvTransform input_data) (transform scaler input_data) ;;
    model <- deref "model" (g_model g) ;;
    predictions <- call (EvPredict input_scaled) (predict model input_scaled) ;;
    getitem0 predictions
  else
    prediction <- random_choice env priorities ;;
    ret (PyStr prediction).

(** Lines 31-59: one press of the predict button. *)
Definition on_predict (g : Globals) (env : Env)
    (temp vibration pressure inspection downtime technician : pystr)
  : M unit :=
  try_except
    (let inputs :=
       [temp; vibration; pressure; inspection; downtime; technician] in
     if any unfilled inputs then
       emit (UiError fill_in_message)
     else
       prediction <- predict_stage g env temp vibration pressure inspection
                       downtime technician ;;
       emit (UiSuccess prediction) ;;;
       emit (UiInputSummary inputs))
    (fun e => emit (UiError (py "An error occurred: " ++ exn_str e))).

(** The PredictionResult of one press whose fields passed the check of
    line 34: this front end has a label only. *)
Definition prediction_result (g : Globals) (env : Env)
    (temp vibration pressure inspection downtime technician : pystr)
  : Exn + PredictionResult :=
  match outcome (predict_stage g env temp vibration pressure inspection
                   downtime technician) with
  | inl e => inl e
  | inr prediction => inr {| label := prediction; confidence := None |}
  end.

End StreamlitApp.

(* ===================================================================== *)
(** * Test doubles for the external collaborators *)
(* ===================================================================== *)

Module Stub.

(** A scaler that leaves the row as it is. *)
Definition identity_scaler : Scaler := {| transform := fun x => inr x |}.

(** A classifier that always answers [code]; [proba] is the row its
    [predict_proba] gives, when it has one. *)
Definition constant_model (code : PyVal) (proba : option (list double))
  : Model :=
  {| predict := fun _ => inr [code];
     predict_proba :=
       match proba with
       | Some row => Some (fun _ => inr [row])
       | None => None
       end |}.

(** A classifier whose [predict_proba] raises. *)
Definition raising_proba_model (code : PyVal) : Model :=
  {| predict := fun _ => inr [code];
     predict_proba := Some (fun _ => inl (Exception "predict_proba failed")) |}.

Definition both_files (m : Model) (s : Scaler) : Storage :=
  {| model_pkl := inr m; scaler_pkl := inr s |}.

Definition no_files : Storage :=
  {| model_pkl := inl (Exception "No such file or directory: model.pkl");
     scaler_pkl := inl (Exception "No such file or directory: scaler.pkl") |}.

Definition corrupt_scaler (m : Model) : Storage :=
  {| model_pkl := inr m;
     scaler_pkl := inl (Exception "invalid load key") |}.

Definition loaded (m : Model) (s : Scaler) : Globals :=
  {| g_model := Some m; g_scaler := Some s; MODEL_LOADED := true |}.

Definition demo : Globals :=
  {| g_model := None; g_scaler := None; MODEL_LOADED := false |}.

Definition digit (c : N) : option Z :=
  if ((0x30 <=? c) && (c <=? 0x39))%N then Some (Z.of_N c - 48)%Z else None.

(** Plain decimal literals: digits with at most one point. *)
Fixpoint parse_decimal (s : pystr) (num : Z) (scale : option positive)
    (seen : bool) : option Q :=
  match s with
  | [] =>
      if seen then
        Some (match scale with None => inject_Z num | Some d => num # d end)
      else None
  | c :: s' =>
      if (c =? 0x2E)%N then
        match scale with
        | None => parse_decimal s' num (Some 1%positive) seen
        | Some _ => None
        end
      else
        match digit c with
        | Some d =>
            parse_decimal s' (10 * num + d)%Z
              (option_map (Pos.mul 10) scale) true
        | None => None
        end
  end.

(** A stand-in for the builtin [float] on plain decimal literals. *)
Definition decimal_float (s : pystr) : Exn + Q :=
  match parse_decimal (strip s) 0 None false with
  | Some q => inr q
  | None => inl (Exception (py "could not convert string to float: " ++ s))
  end.

Definition env (r : nat) : Env := {| float := decimal_float; draw := r |}.

End Stub.

(** Membership in the closed label set {Low, Medium, High}. *)
Definition is_priority (v : PyVal) : Prop :=
  exists l, v = PyStr l /\ l ∈ priorities.

(** [m] is the maximum of [items]: one of them, and none is greater. *)
Definition is_maximum (m : double) (items : list double) : Prop :=
  m ∈ items /\ Forall (fun y => fgt y m = false) items.

(** A confidence within [0, 100]. *)
Definition is_percentage (c : double) : Prop :=
  SFleb (double_of_Z 0) c = true /\ SFleb c (double_of_Z 100) = true.

(** The first row [model.predict_proba] answers for [x], when the
    attribute exists, the call returns and the answer has a row. *)
Definition proba_row (model : Model) (x : matrix) : option (list double) :=
  match predict_proba model with
  | Some proba =>
      match proba x with
      | inr (row :: _) => Some row
      | _ => None
      end
  | None => None
  end.

(** A press that only showed the validation error of line 35. *)
Definition validation_error : M unit :=
  ([UiError StreamlitApp.fill_in_message], inr tt).

(* ===================================================================== *)
(** * src/modern_app.py: the sidebar and the six spinners *)
(* ===================================================================== *)

Module ModernPage.

(** Lines 178-181: the status line of the sidebar (the text inside the
    badge; the surrounding markup is left out). *)
Definition online_badge : pystr := [0x1F7E2]%N ++ py " AI Model: Online".
Definition demo_badge : pystr := [0x1F534]%N ++ py " AI Model: Demo Mode".

Definition status_badge (g : Globals) : pystr :=
  if MODEL_LOADED g then online_badge else demo_badge.

(** The arguments of one [st.number_input]. *)
Record NumberInput : Type := {
  min_value : Q;
  max_value : Q;
  value : Q;
  step : Q
}.

(** Lines 216-269. *)
Definition temp : NumberInput :=
  {| min_value := -50; max_value := 200; value := 25; step := 1 # 10 |}.
Definition vibration : NumberInput :=
  {| min_value := 0; max_value := 10; value := 3 # 2; step := 1 # 10 |}.
Definition pressure : NumberInput :=
  {| min_value := 0; max_value := 100; value := 5; step := 1 # 10 |}.
Definition inspection : NumberInput :=
  {| min_value := 1; max_value := 480; value := 30; step := 1 |}.
Definition downtime : NumberInput :=
  {| min_value := 0; max_value := 100000; value := 1000; step := 50 |}.
Definition technician : NumberInput :=
  {| min_value := 0; max_value := 100; value := 85; step := 1 |}.


End ModernPage.

(** A string made of whitespace only. *)
Definition all_space (s : pystr) : bool := forallb isspace s.

(** The text of line 59 for an exception. *)
Definition error_message (e : Exn) : pystr :=
  py "An error occurred: " ++ exn_str e.

(** [float] accepts the text. *)
Definition parses (env : Env) (s : pystr) : Prop :=
  exists q, float env s = inr q.

(* ===================================================================== *)
(** * Facts about strings *)
(* ===================================================================== *)

Section Strings.

Implicit Types s t p : pystr.

Lemma startswith_app p t : startswith (p ++ t) p = true.
Proof.
  induction p as [|a p IH]; simpl; [done|].
  by rewrite N.eqb_refl, IH.
Qed.

Lemma lstrip_spaces s : forallb isspace s = true -> lstrip s = [].
Proof.
  induction s as [|c s IH]; simpl; [done|].
  intros [Hc Hs]%andb_prop. rewrite Hc. auto.
Qed.

Lemma lstrip_nonspace c s : isspace c = false -> lstrip (c :: s) = c :: s.
Proof. intros H. simpl. by rewrite H. Qed.

(** Stripping on the left of [u ++ c :: v] stops at [c] at the latest. *)
Lemma lstrip_app_nonspace u c v :
  isspace c = false -> exists w, lstrip (u ++ c :: v) = w ++ c :: v.
Proof.
  intros Hc. induction u as [|a u [w IH]]; simpl.
  - exists []. by rewrite Hc.
  - destruct (isspace a).
    + exists w. exact IH.
    + by exists (a :: u).
Qed.

Lemma rstrip_app_nonspace u c v :
  isspace c = false -> exists w, rstrip (u ++ c :: v) = u ++ c :: w.
Proof.
  intros Hc. unfold rstrip.
  rewrite rev_app_distr. simpl. rewrite <- app_assoc. simpl.
  destruct (lstrip_app_nonspace (rev v) c (rev u) Hc) as [w Hw].
  rewrite Hw. exists (rev w).
  rewrite rev_app_distr. simpl. rewrite rev_involutive.
  by rewrite <- app_assoc.
Qed.

Lemma strip_spaces s : forallb isspace s = true -> strip s = [].
Proof. intros H. unfold strip. by rewrite (lstrip_spaces s H). Qed.

Lemma strip_empty : strip [] = [].
Proof. reflexivity. Qed.

End Strings.

(* ===================================================================== *)
(** * The label table, the recommendation table and the risk score *)
(* ===================================================================== *)

Lemma str_eqb_true (s t : pystr) : str_eqb s t = true <-> s = t.
Proof. unfold str_eqb. by rewrite bool_decide_eq_true. Qed.

Lemma str_eqb_false (s t : pystr) : str_eqb s t = false <-> s <> t.
Proof. unfold str_eqb. by rewrite bool_decide_eq_false. Qed.

Lemma prediction_map_lookup (z : Z) :
  ModernApp.prediction_map !! z =
    if decide (z = 0%Z) then Some (py "Low")
    else if decide (z = 1%Z) then Some (py "Medium")
    else if decide (z = 2%Z) then Some (py "High")
    else None.
Proof.
  unfold ModernApp.prediction_map.
  repeat case_decide; subst; simplify_map_eq; done.
Qed.

Lemma recommendations_lookup (l : pystr) :
  ModernApp.recommendations !! l =
    if decide (l = py "High") then Some (py "Immediate action required")
    else if decide (l = py "Medium") then Some (py "Schedule maintenance")
    else if decide (l = py "Low") then Some (py "Monitor regularly")
    else None.
Proof.
  unfold ModernApp.recommendations.
  repeat case_decide; subst; simplify_map_eq; done.
Qed.

Lemma label_of_integer_priority (z : Z) :
  ModernApp.label_of (PyInt z) ∈ priorities.
Proof.
  unfold ModernApp.label_of, dict_get. rewrite prediction_map_lookup.
  unfold priorities. repeat case_decide; simpl; set_solver.
Qed.

(** C1: the class code returned by [model.predict] becomes a label by a
    total, fixed mapping: integer 0 gives Low, 1 gives Medium, 2 gives
    High, every other integer gives the default Medium, and a code that
    is a string is the label as it is. *)
Theorem C1_label_mapping :
  ModernApp.label_of (PyInt 0) = py "Low" /\
  ModernApp.label_of (PyInt 1) = py "Medium" /\
  ModernApp.label_of (PyInt 2) = py "High" /\
  (forall z : Z,
     ModernApp.label_of (PyInt z) =
       if (z =? 0)%Z then py "Low"
       else if (z =? 2)%Z then py "High"
       else py "Medium") /\
  (forall s : pystr, ModernApp.label_of (PyStr s) = s).
Proof.
  assert (H : forall z : Z,
     ModernApp.label_of (PyInt z) =
       if (z =? 0)%Z then py "Low"
       else if (z =? 2)%Z then py "High"
       else py "Medium").
  { intros z. unfold ModernApp.label_of, dict_get.
    rewrite prediction_map_lookup.
    destruct (Z.eqb_spec z 0), (Z.eqb_spec z 2);
      repeat case_decide; simpl; try done; lia. }
  repeat split; try (rewrite H; reflexivity); auto.
Qed.

(** C5: recommendation and risk score are functions of the label alone:
    High gives "Immediate action required" and 85, Medium gives "Schedule
    maintenance" and 55, Low gives "Monitor regularly" and 25, and any
    other label gives the default recommendation "Monitor regularly";
    what the page shows is these two lookups, whatever the confidence and
    the readings are. *)
Theorem C5_recommendation_and_risk :
  (ModernApp.recommendation (py "High") = py "Immediate action required" /\
   ModernApp.risk_score (py "High") = 85%Z) /\
  (ModernApp.recommendation (py "Medium") = py "Schedule maintenance" /\
   ModernApp.risk_score (py "Medium") = 55%Z) /\
  (ModernApp.recommendation (py "Low") = py "Monitor regularly" /\
   ModernApp.risk_score (py "Low") = 25%Z) /\
  (forall l : pystr,
     ModernApp.recommendation l =
       if str_eqb l (py "High") then py "Immediate action required"
       else if str_eqb l (py "Medium") then py "Schedule maintenance"
       else py "Monitor regularly") /\
  (forall (l : pystr) (c : double) (t v p i d te : Q),
     ModernApp.card_recommendation (ModernApp.render l c t v p i d te)
       = ModernApp.recommendation l /\
     ModernApp.metric_risk_score (ModernApp.render l c t v p i d te)
       = ModernApp.risk_score l).
Proof.
  assert (H : forall l : pystr,
     ModernApp.recommendation l =
       if str_eqb l (py "High") then py "Immediate action required"
       else if str_eqb l (py "Medium") then py "Schedule maintenance"
       else py "Monitor regularly").
  { intros l. unfold ModernApp.recommendation, dict_get, str_eqb.
    rewrite recommendations_lookup.
    repeat case_decide; repeat case_bool_decide; simpl; congruence. }
  repeat split; intros; try apply H; try (rewrite H; reflexivity); reflexivity.
Qed.

(* ===================================================================== *)
(** * Sequencing *)
(* ===================================================================== *)

Lemma bind_ret {A B} (a : A) (k : A -> M B) : bind (ret a) k = k a.
Proof. unfold bind, ret. by destruct (k a). Qed.

Lemma bind_lift_inr {A B} (a : A) (k : A -> M B) :
  bind (lift (inr a)) k = k a.
Proof. apply bind_ret. Qed.

Lemma bind_lift_inl {A B} (e : Exn) (k : A -> M B) :
  bind (lift (inl e)) k = ([], inl e).
Proof. reflexivity. Qed.

Lemma trace_bind {A B} (m : M A) (k : A -> M B) :
  trace (bind m k) =
    trace m ++ match outcome m with inr a => trace (k a) | inl _ => [] end.
Proof.
  destruct m as [t [e|a]]; simpl.
  - by rewrite app_nil_r.
  - by destruct (k a).
Qed.

(* ===================================================================== *)
(** * The builtin max and the random draw *)
(* ===================================================================== *)

Lemma Qle_bool_false (x y : Q) : Qle_bool x y = false -> (y <= x)%Q.
Proof.
  intros H. destruct (Qlt_le_dec y x) as [Hlt|Hle].
  - by apply Qlt_le_weak.
  - apply Qle_bool_iff in Hle. congruence.
Qed.

(** The order of doubles, as far as [max] needs it. *)
Section DoubleOrder.

Ltac order_cases :=
  repeat match goal with
         | |- context [(?a ?= ?b)%Z] => destruct (Z.compare_spec a b)
         | |- context [(?a ?= ?b)%positive] => destruct (Pos.compare_spec a b)
         end;
  simpl; intros; subst; try lia; try discriminate; try reflexivity.

Ltac by_cases x :=
  destruct x as [[]|[]| |[] ? ?].

Lemma fgt_irrefl (x : double) : fgt x x = false.
Proof.
  unfold fgt, SFltb, SFcompare. by_cases x; try reflexivity;
    change (Pos.compare_cont Eq ?a ?b) with (Pos.compare a b);
    rewrite Z.compare_refl, Pos.compare_refl; reflexivity.
Qed.

Lemma fgt_asym (x y : double) : fgt x y = true -> fgt y x = false.
Proof.
  unfold fgt, SFltb, SFcompare. by_cases x; by_cases y;
    try discriminate; try reflexivity;
    change (Pos.compare_cont Eq ?a ?b) with (Pos.compare a b);
    order_cases.
Qed.

Lemma fgt_trans (x y z : double) :
  fgt x y = true -> fgt y z = true -> fgt x z = true.
Proof.
  unfold fgt, SFltb, SFcompare. by_cases x; by_cases y;
    try discriminate; by_cases z; try discriminate; try reflexivity;
    change (Pos.compare_cont Eq ?a ?b) with (Pos.compare a b);
    order_cases.
Qed.

(** Nothing below [best] is above what is above [best]. *)
Lemma fgt_below (best r y : double) :
  fgt r best = true -> fgt y best = false -> fgt y r = false.
Proof.
  intros Hr Hy. destruct (fgt y r) eqn:E; [|done].
  rewrite (fgt_trans y r best E Hr) in Hy. discriminate.
Qed.

End DoubleOrder.

Lemma max_from_spec (items : list double) : forall best : double,
  max_from best items ∈ best :: items /\
  (max_from best items = best \/ fgt (max_from best items) best = true) /\
  Forall (fun y => fgt y (max_from best items) = false) items.
Proof.
  induction items as [|x items IH]; intros best; simpl.
  - split; [apply list_elem_of_here|]. split; [by left|constructor].
  - destruct (IH (if fgt x best then x else best)) as (Hin & Hup & Hall).
    destruct (fgt x best) eqn:E.
    + split; [apply elem_of_cons; by right|]. split.
      * right. destruct Hup as [->|Hup]; [done|].
        by apply (fgt_trans _ x best).
      * constructor; [|done].
        destruct Hup as [->|Hup]; [apply fgt_irrefl|by apply fgt_asym].
    + split; [rewrite elem_of_cons in Hin; rewrite !elem_of_cons; tauto|].
      split; [done|]. constructor; [|done].
      destruct Hup as [->|Hup]; [done|]. by apply (fgt_below best).
Qed.

Lemma max_from_is_maximum (q : double) (items : list double) :
  is_maximum (max_from q items) (q :: items).
Proof.
  destruct (max_from_spec items q) as (Hin & Hup & Hall).
  split; [done|]. constructor; [|done].
  destruct Hup as [->|Hup]; [apply fgt_irrefl|by apply fgt_asym].
Qed.

Lemma random_choice_priorities (env : Env) :
  exists l, l ∈ priorities /\
    random_choice env priorities = ([EvRandomChoice priorities], inr l).
Proof.
  unfold random_choice, call.
  assert (H : (draw env mod length priorities < 3)%nat)
    by (apply Nat.mod_upper_bound; discriminate).
  destruct (draw env mod length priorities)%nat as [|[|[|n]]]; [| | |lia];
    simpl; eexists; (split; [|reflexivity]); unfold priorities; set_solver.
Qed.

(* ===================================================================== *)
(** * The prediction stage of the structured front end *)
(* ===================================================================== *)

Section Modern.

Variables (g : Globals) (env : Env).
Variables (temp vibration pressure inspection downtime technician : Q).

Let X : matrix :=
  ModernApp.input_data temp vibration pressure inspection downtime technician.

Lemma confidence_of_spec (model : Model) (x : matrix) :
  ModernApp.confidence_of model x =
    (match predict_proba model with
     | Some _ => [EvPredictProba x]
     | None => []
     end,
     inr (match proba_row model x with
          | Some (q :: row) => fmul (max_from q row) (double_of_Z 100)
          | _ => double_of_Z 85
          end)).
Proof.
  unfold ModernApp.confidence_of, proba_row.
  destruct (predict_proba model) as [proba|]; [|reflexivity].
  simpl. unfold call.
  destruct (proba x) as [e|[|[|q row] rows]]; reflexivity.
Qed.

Lemma modern_demo_stage :
  MODEL_LOADED g = false ->
  exists l, l ∈ priorities /\
    ModernApp.predict_stage g env temp vibration pressure inspection
      downtime technician =
      ([EvRandomChoice priorities], inr (l, double_of_Z 75)).
Proof.
  intros Hdemo. unfold ModernApp.predict_stage. rewrite Hdemo.
  destruct (random_choice_priorities env) as (l & Hl & ->).
  exists l. split; [done|reflexivity].
Qed.

Lemma modern_loaded_stage (s : Scaler) (model : Model) (scaled : matrix)
    (code : PyVal) (rest : list PyVal) :
  MODEL_LOADED g = true ->
  g_scaler g = Some s ->
  g_model g = Some model ->
  transform s X = inr scaled ->
  predict model scaled = inr (code :: rest) ->
  ModernApp.predict_stage g env temp vibration pressure inspection
    downtime technician =
    (EvTransform X :: EvPredict scaled ::
       match predict_proba model with
       | Some _ => [EvPredictProba scaled]
       | None => []
       end,
     inr (ModernApp.label_of code,
          match proba_row model scaled with
          | Some (q :: row) => fmul (max_from q row) (double_of_Z 100)
          | _ => double_of_Z 85
          end)).
Proof.
  intros Hl Hs Hm Ht Hp. unfold ModernApp.predict_stage.
  rewrite Hl, Hs, Hm. simpl. unfold call. fold X. rewrite Ht. simpl.
  rewrite Hp. simpl. rewrite confidence_of_spec. simpl.
  by rewrite app_nil_r.
Qed.

(** Whenever the stage returns with the artifacts loaded, the scaler and
    the classifier answered, and the result is built from their answers. *)
Lemma modern_loaded_inv (l : pystr) (c : double) :
  MODEL_LOADED g = true ->
  outcome (ModernApp.predict_stage g env temp vibration pressure inspection
             downtime technician) = inr (l, c) ->
  exists s model scaled code rest,
    g_scaler g = Some s /\ g_model g = Some model /\
    transform s X = inr scaled /\
    predict model scaled = inr (code :: rest) /\
    l = ModernApp.label_of code /\
    c = match proba_row model scaled with
        | Some (q :: row) => fmul (max_from q row) (double_of_Z 100)
        | _ => double_of_Z 85
        end.
Proof.
  intros Hl H.
  destruct (g_scaler g) as [s|] eqn:Hs;
    [|unfold ModernApp.predict_stage in H; rewrite Hl, Hs in H; discriminate].
  destruct (transform s X) as [e|scaled] eqn:Ht;
    [unfold ModernApp.predict_stage in H; rewrite Hl, Hs in H; simpl in H;
     unfold call in H; fold X in H; rewrite Ht in H; discriminate|].
  destruct (g_model g) as [model|] eqn:Hm;
    [|unfold ModernApp.predict_stage in H; rewrite Hl, Hs, Hm in H; simpl in H;
      unfold call in H; fold X in H; rewrite Ht in H; discriminate].
  destruct (predict model scaled) as [e|[|code rest]] eqn:Hp;
    [unfold ModernApp.predict_stage in H; rewrite Hl, Hs, Hm in H; simpl in H;
     unfold call in H; fold X in H; rewrite Ht in H; simpl in H;
     rewrite Hp in H; discriminate ..|].
  rewrite (modern_loaded_stage s model scaled code rest Hl Hs Hm Ht Hp) in H.
  simpl in H. injection H as <- <-.
  by exists s, model, scaled, code, rest.
Qed.

End Modern.

(* ===================================================================== *)
(** * The free-text front end: the check of line 34 and the stage *)
(* ===================================================================== *)

Lemma lstrip_app_spaces (ws : pystr) (c : N) (v : pystr) :
  forallb isspace ws = true -> isspace c = false ->
  lstrip (ws ++ c :: v) = c :: v.
Proof.
  intros Hws Hc. induction ws as [|a ws IH]; simpl.
  - by rewrite Hc.
  - simpl in Hws. apply andb_prop in Hws as [Ha Hws]. rewrite Ha. auto.
Qed.

Lemma unfilled_iff (s : pystr) :
  StreamlitApp.unfilled s = true <->
  startswith (strip s) (py "e.g.") = true \/ strip s = [].
Proof.
  unfold StreamlitApp.unfilled.
  rewrite orb_true_iff, str_eqb_true. reflexivity.
Qed.

Lemma strip_eg (ws t : pystr) :
  forallb isspace ws = true ->
  startswith (strip (ws ++ py "e.g." ++ t)) (py "e.g.") = true.
Proof.
  intros Hws. unfold strip.
  change (py "e.g." ++ t) with (101%N :: [46; 103]%N ++ 46%N :: t).
  rewrite (lstrip_app_spaces ws 101 _ Hws eq_refl).
  destruct (rstrip_app_nonspace [101; 46; 103]%N 46%N t eq_refl) as [w Hw].
  change (101%N :: [46; 103]%N ++ 46%N :: t)
    with ([101; 46; 103]%N ++ 46%N :: t).
  rewrite Hw.
  change ([101; 46; 103]%N ++ 46%N :: w) with (py "e.g." ++ w).
  apply startswith_app.
Qed.

Lemma unfilled_eg (ws t : pystr) :
  forallb isspace ws = true ->
  StreamlitApp.unfilled (ws ++ py "e.g." ++ t) = true.
Proof. intros Hws. apply unfilled_iff. left. by apply strip_eg. Qed.

Lemma unfilled_spaces (s : pystr) :
  forallb isspace s = true -> StreamlitApp.unfilled s = true.
Proof. intros H. apply unfilled_iff. right. by apply strip_spaces. Qed.

Lemma unfilled_placeholder (k : nat) (f : pystr) :
  StreamlitApp.placeholders !! k = Some f -> StreamlitApp.unfilled f = true.
Proof.
  do 6 (destruct k as [|k]; [intros [= <-]; vm_compute; reflexivity|]).
  discriminate.
Qed.

Lemma any_unfilled (inputs : list pystr) :
  any StreamlitApp.unfilled inputs = true <->
  exists f, f ∈ inputs /\ StreamlitApp.unfilled f = true.
Proof.
  unfold any. rewrite existsb_exists.
  split; intros (f & Hin & Hf); exists f; split; try done;
    by apply list_elem_of_In.
Qed.

Section Text.

Variables (g : Globals) (env : Env).
Variables (temp vibration pressure inspection downtime technician : pystr).

Let inputs : list pystr :=
  [temp; vibration; pressure; inspection; downtime; technician].

Lemma text_rejects :
  any StreamlitApp.unfilled inputs = true ->
  StreamlitApp.on_predict g env temp vibration pressure inspection
    downtime technician = validation_error.
Proof.
  intros H. unfold StreamlitApp.on_predict. fold inputs. by rewrite H.
Qed.

(** A press that passed the check ends with the input summary or with
    the error of line 59, so it is never the bare validation error. *)
Lemma text_passes :
  any StreamlitApp.unfilled inputs = false ->
  StreamlitApp.on_predict g env temp vibration pressure inspection
    downtime technician <> validation_error.
Proof.
  intros H. unfold StreamlitApp.on_predict, validation_error.
  fold inputs. rewrite H.
  destruct (StreamlitApp.predict_stage g env temp vibration pressure
              inspection downtime technician) as [t [e|v]]; simpl.
  - intros [= Ht]. apply (f_equal last) in Ht.
    rewrite last_snoc in Ht. simpl in Ht. discriminate.
  - intros [= Ht]. apply (f_equal last) in Ht.
    change (t ++ [UiSuccess v; UiInputSummary inputs])
      with (t ++ [UiSuccess v] ++ [UiInputSummary inputs]) in Ht.
    rewrite app_assoc, last_snoc in Ht. discriminate.
Qed.

Lemma text_stage_parsed (f1 f2 f3 f4 f5 f6 : Q) :
  float env temp = inr f1 -> float env vibration = inr f2 ->
  float env pressure = inr f3 -> float env inspection = inr f4 ->
  float env downtime = inr f5 -> float env technician = inr f6 ->
  StreamlitApp.predict_stage g env temp vibration pressure inspection
    downtime technician =
    let input_data := [[f1; f2; f3; f4; f5; f6]] in
    if MODEL_LOADED g then
      (scaler <- deref "scaler" (g_scaler g) ;;
       input_scaled <-
         call (EvTransform input_data) (transform scaler input_data) ;;
       model <- deref "model" (g_model g) ;;
       predictions <-
         call (EvPredict input_scaled) (predict model input_scaled) ;;
       getitem0 predictions)
    else
      (prediction <- random_choice env priorities ;;
       ret (PyStr prediction)).
Proof.
  intros H1 H2 H3 H4 H5 H6. unfold StreamlitApp.predict_stage.
  rewrite H1, H2, H3, H4, H5, H6. by rewrite !bind_lift_inr.
Qed.

(** When the stage returns, the six texts were parsed. *)
Lemma text_stage_inv (v : PyVal) :
  outcome (StreamlitApp.predict_stage g env temp vibration pressure
             inspection downtime technician) = inr v ->
  exists f1 f2 f3 f4 f5 f6,
    float env temp = inr f1 /\ float env vibration = inr f2 /\
    float env pressure = inr f3 /\ float env inspection = inr f4 /\
    float env downtime = inr f5 /\ float env technician = inr f6.
Proof.
  unfold StreamlitApp.predict_stage, lift.
  destruct (float env temp) as [?|f1]; [discriminate|].
  destruct (float env vibration) as [?|f2]; [discriminate|].
  destruct (float env pressure) as [?|f3]; [discriminate|].
  destruct (float env inspection) as [?|f4]; [discriminate|].
  destruct (float env downtime) as [?|f5]; [discriminate|].
  destruct (float env technician) as [?|f6]; [discriminate|].
  intros _. by exists f1, f2, f3, f4, f5, f6.
Qed.

(** When the stage returns with the artifacts loaded, its value is the
    first prediction of the classifier, as it came. *)
Lemma text_loaded_inv (v : PyVal) :
  MODEL_LOADED g = true ->
  outcome (StreamlitApp.predict_stage g env temp vibration pressure
             inspection downtime technician) = inr v ->
  exists f1 f2 f3 f4 f5 f6 s model scaled rest,
    float env temp = inr f1 /\ float env vibration = inr f2 /\
    float env pressure = inr f3 /\ float env inspection = inr f4 /\
    float env downtime = inr f5 /\ float env technician = inr f6 /\
    g_scaler g = Some s /\ g_model g = Some model /\
    transform s [[f1; f2; f3; f4; f5; f6]] = inr scaled /\
    predict model scaled = inr (v :: rest).
Proof.
  intros Hl E.
  destruct (text_stage_inv v E)
    as (f1 & f2 & f3 & f4 & f5 & f6 & H1 & H2 & H3 & H4 & H5 & H6).
  rewrite (text_stage_parsed f1 f2 f3 f4 f5 f6 H1 H2 H3 H4 H5 H6) in E.
  cbv zeta in E. rewrite Hl in E.
  destruct (g_scaler g) as [s|]; [|discriminate].
  simpl in E. unfold call in E.
  destruct (transform s _) as [e|scaled] eqn:Ht; [discriminate|].
  destruct (g_model g) as [model|]; [|discriminate].
  simpl in E.
  destruct (predict model scaled) as [e|[|code rest]] eqn:Hp;
    try discriminate.
  simpl in E. injection E as <-.
  by exists f1, f2, f3, f4, f5, f6, s, model, scaled, rest.
Qed.

Lemma text_demo_stage (f1 f2 f3 f4 f5 f6 : Q) :
  MODEL_LOADED g = false ->
  float env temp = inr f1 -> float env vibration = inr f2 ->
  float env pressure = inr f3 -> float env inspection = inr f4 ->
  float env downtime = inr f5 -> float env technician = inr f6 ->
  exists l, l ∈ priorities /\
    StreamlitApp.predict_stage g env temp vibration pressure inspection
      downtime technician = ([EvRandomChoice priorities], inr (PyStr l)).
Proof.
  intros Hd H1 H2 H3 H4 H5 H6.
  rewrite (text_stage_parsed f1 f2 f3 f4 f5 f6 H1 H2 H3 H4 H5 H6).
  cbv zeta. rewrite Hd.
  destruct (random_choice_priorities env) as (l & Hl & ->).
  exists l. split; [done|reflexivity].
Qed.

End Text.

(* ===================================================================== *)
(** * Demo mode, the label set and the confidence *)
(* ===================================================================== *)

Lemma priority_label_of_integer (code : PyVal) :
  is_integer code = true -> ModernApp.label_of code ∈ priorities.
Proof.
  destruct code as [z|s|text]; try discriminate.
  intros _. apply label_of_integer_priority.
Qed.

(** C2, as far as the code goes: with the artifacts not loaded, every
    valid input gets a label from {Low, Medium, High} in both front ends;
    the structured front end gives it the confidence 75, and the
    free-text front end, whose fields pass the check and parse as
    numbers, shows the label with the input summary and has no
    confidence at all. *)
Theorem C2_demo_mode (g : Globals) (env : Env) :
  MODEL_LOADED g = false ->
  (forall t v p i d te : Q,
     exists l, l ∈ priorities /\
       ModernApp.prediction_result g env t v p i d te =
         inr {| label := PyStr l; confidence := Some (double_of_Z 75) |}) /\
  (forall (temp vibration pressure inspection downtime technician : pystr)
          (f1 f2 f3 f4 f5 f6 : Q),
     let inputs :=
       [temp; vibration; pressure; inspection; downtime; technician] in
     any StreamlitApp.unfilled inputs = false ->
     float env temp = inr f1 -> float env vibration = inr f2 ->
     float env pressure = inr f3 -> float env inspection = inr f4 ->
     float env downtime = inr f5 -> float env technician = inr f6 ->
     exists l, l ∈ priorities /\
       StreamlitApp.prediction_result g env temp vibration pressure
         inspection downtime technician =
         inr {| label := PyStr l; confidence := None |} /\
       StreamlitApp.on_predict g env temp vibration pressure inspection
         downtime technician =
         ([EvRandomChoice priorities; UiSuccess (PyStr l);
           UiInputSummary inputs], inr tt)).
Proof.
  intros Hd. split.
  - intros t v p i d te.
    destruct (modern_demo_stage g env t v p i d te Hd) as (l & Hl & E).
    exists l. split; [done|].
    unfold ModernApp.prediction_result. by rewrite E.
  - intros temp vibration pressure inspection downtime technician
      f1 f2 f3 f4 f5 f6 inputs Hok H1 H2 H3 H4 H5 H6.
    destruct (text_demo_stage g env temp vibration pressure inspection
                downtime technician f1 f2 f3 f4 f5 f6 Hd H1 H2 H3 H4 H5 H6)
      as (l & Hl & E).
    exists l. split; [done|]. split.
    + unfold StreamlitApp.prediction_result. by rewrite E.
    + unfold StreamlitApp.on_predict. fold inputs. rewrite Hok, E.
      reflexivity.
Qed.

Lemma C2_demo_mode_witness :
  MODEL_LOADED Stub.demo = false /\
  (exists l, l ∈ priorities /\
     ModernApp.prediction_result Stub.demo (Stub.env 5)
       75 (3 # 2) 5 30 1000 85 =
       inr {| label := PyStr l; confidence := Some (double_of_Z 75) |}) /\
  (exists l, l ∈ priorities /\
     StreamlitApp.prediction_result Stub.demo (Stub.env 5)
       (py "75") (py "1.5") (py "5.0") (py "30") (py "1000") (py "85") =
       inr {| label := PyStr l; confidence := None |}).
Proof.
  split; [reflexivity|].
  destruct (C2_demo_mode Stub.demo (Stub.env 5) eq_refl) as [Hm Ht].
  split; [apply Hm|].
  destruct (Ht (py "75") (py "1.5") (py "5.0") (py "30") (py "1000") (py "85")
              75%Q (15 # 10) (50 # 10) 30%Q 1000%Q 85%Q
              eq_refl eq_refl eq_refl eq_refl eq_refl eq_refl eq_refl)
    as (l & Hl & E & _).
  by exists l.
Defined.

(** C2 as stated fails: in demo mode the free-text front end, on a valid
    input, produces a label and no confidence, so its confidence is not
    75. *)
Lemma C2_counterexample :
  MODEL_LOADED Stub.demo = false /\
  any StreamlitApp.unfilled
    [py "75"; py "1.5"; py "5.0"; py "30"; py "1000"; py "85"] = false /\
  StreamlitApp.prediction_result Stub.demo (Stub.env 5)
    (py "75") (py "1.5") (py "5.0") (py "30") (py "1000") (py "85") =
    inr {| label := PyStr (py "High"); confidence := None |} /\
  ~ (exists r,
       StreamlitApp.prediction_result Stub.demo (Stub.env 5)
         (py "75") (py "1.5") (py "5.0") (py "30") (py "1000") (py "85") =
         inr r /\ confidence r = Some (double_of_Z 75)).
Proof.
  split; [reflexivity|]. split; [vm_compute; reflexivity|].
  split; [vm_compute; reflexivity|].
  intros (r & Hr & Hc).
  vm_compute in Hr. injection Hr as <-. discriminate.
Qed.

(** C3 as stated fails: a classifier that answers the string "Critical"
    with the probability row [1.5] gives a label outside {Low, Medium,
    High} and the confidence 150. *)
Lemma C3_counterexample :
  let model :=
    Stub.constant_model (PyStr (py "Critical"))
      (Some [double_of_Q (3 # 2)]) in
  exists r,
    ModernApp.prediction_result (Stub.loaded model Stub.identity_scaler)
      (Stub.env 0) 75 (3 # 2) 5 30 1000 85 = inr r /\
    ~ is_priority (label r) /\
    ~ (exists c, confidence r = Some c /\ is_percentage c).
Proof.
  eexists. split; [vm_compute; reflexivity|]. split.
  - intros (l & [= <-] & Hl). unfold priorities in Hl.
    rewrite !elem_of_cons, elem_of_nil in Hl.
    destruct Hl as [Hl|[Hl|[Hl|[]]]]; vm_compute in Hl; discriminate.
  - intros (c & [= <-] & _ & Hc). vm_compute in Hc. discriminate.
Qed.

(** C3, as far as the code goes.  Structured front end: the label is in
    {Low, Medium, High} in demo mode and whenever the classifier answers
    an integer code, and is the code's own text otherwise; the confidence
    is 75 in demo mode, and with the artifacts loaded it is the double
    product of 100 and the largest probability of the row returned by
    [predict_proba], and 85 when no such row is obtained; it is not
    confined to [0,100].  Free-text front end: no confidence; the label
    is in {Low, Medium, High} in demo mode and is the classifier's first
    prediction, unchanged, with the artifacts loaded. *)
Theorem C3_prediction_result (g : Globals) (env : Env) :
  (forall (t v p i d te : Q) (r : PredictionResult),
     ModernApp.prediction_result g env t v p i d te = inr r ->
     exists (l : pystr) (c : double),
       r = {| label := PyStr l; confidence := Some c |} /\
       if MODEL_LOADED g then
         exists s model scaled code rest,
           g_scaler g = Some s /\ g_model g = Some model /\
           transform s (ModernApp.input_data t v p i d te) = inr scaled /\
           predict model scaled = inr (code :: rest) /\
           l = ModernApp.label_of code /\
           (is_integer code = true -> l ∈ priorities) /\
           match proba_row model scaled with
           | Some (q :: row) =>
               exists m, is_maximum m (q :: row) /\
                         c = fmul m (double_of_Z 100)
           | _ => c = double_of_Z 85
           end
       else l ∈ priorities /\ c = double_of_Z 75) /\
  (forall (temp vibration pressure inspection downtime technician : pystr)
          (r : PredictionResult),
     StreamlitApp.prediction_result g env temp vibration pressure
       inspection downtime technician = inr r ->
     confidence r = None /\
     (MODEL_LOADED g = false -> is_priority (label r)) /\
     (MODEL_LOADED g = true ->
        exists f1 f2 f3 f4 f5 f6 s model scaled rest,
          float env temp = inr f1 /\ float env vibration = inr f2 /\
          float env pressure = inr f3 /\ float env inspection = inr f4 /\
          float env downtime = inr f5 /\ float env technician = inr f6 /\
          g_scaler g = Some s /\ g_model g = Some model /\
          transform s [[f1; f2; f3; f4; f5; f6]] = inr scaled /\
          predict model scaled = inr (label r :: rest))).
Proof.
  split.
  - intros t v p i d te r H. unfold ModernApp.prediction_result in H.
    destruct (outcome (ModernApp.predict_stage g env t v p i d te))
      as [e|[l c]] eqn:E; [discriminate|].
    injection H as <-. exists l, c. split; [done|].
    destruct (MODEL_LOADED g) eqn:Hl.
    + destruct (modern_loaded_inv g env t v p i d te l c Hl E)
        as (s & model & scaled & code & rest & Hs & Hm & Ht & Hp & -> & ->).
      exists s, model, scaled, code, rest.
      repeat (split; [done|]). split.
      * apply priority_label_of_integer.
      * destruct (proba_row model scaled) as [[|q row]|]; try done.
        exists (max_from q row). split; [apply max_from_is_maximum|done].
    + destruct (modern_demo_stage g env t v p i d te Hl) as (l' & Hl' & E').
      rewrite E' in E. simpl in E. by injection E as <- <-.
  - intros temp vibration pressure inspection downtime technician r H.
    unfold StreamlitApp.prediction_result in H.
    destruct (outcome (StreamlitApp.predict_stage g env temp vibration
                pressure inspection downtime technician))
      as [e|v] eqn:E; [discriminate|].
    injection H as <-. split; [done|]. simpl. split.
    + intros Hd.
      destruct (text_stage_inv g env _ _ _ _ _ _ v E)
        as (f1 & f2 & f3 & f4 & f5 & f6 & H1 & H2 & H3 & H4 & H5 & H6).
      destruct (text_demo_stage g env _ _ _ _ _ _ f1 f2 f3 f4 f5 f6
                  Hd H1 H2 H3 H4 H5 H6) as (l & Hl & E').
      rewrite E' in E. simpl in E. injection E as <-. by exists l.
    + intros Hl. by apply text_loaded_inv.
Qed.

Lemma C3_prediction_result_witness :
  let row :=
    [double_of_Q (1 # 10); double_of_Q (7 # 10); double_of_Q (2 # 10)] in
  let model := Stub.constant_model (PyInt 2) (Some row) in
  let g := Stub.loaded model Stub.identity_scaler in
  let r := {| label := PyStr (py "High");
              confidence :=
                Some (fmul (double_of_Q (7 # 10)) (double_of_Z 100)) |} in
  ModernApp.prediction_result g (Stub.env 0) 75 (3 # 2) 5 30 1000 85 = inr r /\
  exists (l : pystr) (c m : double),
    r = {| label := PyStr l; confidence := Some c |} /\
    l ∈ priorities /\ is_maximum m row /\ c = fmul m (double_of_Z 100).
Proof.
  intros row model g r.
  assert (E : ModernApp.prediction_result g (Stub.env 0)
                75 (3 # 2) 5 30 1000 85 = inr r)
    by (vm_compute; reflexivity).
  split; [exact E|].
  destruct (C3_prediction_result g (Stub.env 0)) as [Hm _].
  destruct (Hm 75%Q (3 # 2) 5%Q 30%Q 1000%Q 85%Q r E)
    as (l & c & Hr & s & m & scaled & code & rest
        & Hs & Hmo & Ht & Hp & Hl & Hint & Hc).
  injection Hs as <-. injection Hmo as <-.
  injection Ht as <-. injection Hp as <- <-.
  destruct Hc as (mx & Hmx & Hc).
  exists l, c, mx. split; [done|]. split; [by apply Hint|]. by split.
Defined.

(** C6: with the artifacts loaded and a class code obtained, the label is
    the one computed from that code whatever happens to the probability
    lookup, no exception leaves the lookup, and the confidence is the
    maximum of the returned probabilities multiplied by 100, as doubles
    are multiplied, when [model.predict_proba] returns them, and exactly
    85 when the attribute is absent, the call raises, or nothing usable
    comes back. *)
Theorem C6_confidence (g : Globals) (env : Env) (t v p i d te : Q)
    (s : Scaler) (model : Model) (scaled : matrix)
    (code : PyVal) (rest : list PyVal) :
  MODEL_LOADED g = true ->
  g_scaler g = Some s ->
  g_model g = Some model ->
  transform s (ModernApp.input_data t v p i d te) = inr scaled ->
  predict model scaled = inr (code :: rest) ->
  exists c : double,
    outcome (ModernApp.predict_stage g env t v p i d te) =
      inr (ModernApp.label_of code, c) /\
    match predict_proba model with
    | None => c = double_of_Z 85
    | Some proba =>
        match proba scaled with
        | inl _ => c = double_of_Z 85
        | inr ((q :: row) :: _) =>
            exists m, is_maximum m (q :: row) /\
                      c = fmul m (double_of_Z 100)
        | inr _ => c = double_of_Z 85
        end
    end.
Proof.
  intros Hl Hs Hm Ht Hp.
  rewrite (modern_loaded_stage g env t v p i d te s model scaled code rest
             Hl Hs Hm Ht Hp).
  eexists. split; [reflexivity|].
  unfold proba_row.
  destruct (predict_proba model) as [proba|]; [|reflexivity].
  destruct (proba scaled) as [e|[|[|q row] rows]]; try reflexivity.
  exists (max_from q row). split; [apply max_from_is_maximum|reflexivity].
Qed.

Lemma C6_confidence_witness :
  let row := [double_of_Q (57 # 100); double_of_Q (43 # 100)] in
  let model := Stub.constant_model (PyInt 2) (Some row) in
  let g := Stub.loaded model Stub.identity_scaler in
  exists c : double,
    outcome (ModernApp.predict_stage g (Stub.env 0) 75 (3 # 2) 5 30 1000 85)
      = inr (ModernApp.label_of (PyInt 2), c) /\
    exists m, is_maximum m row /\ c = fmul m (double_of_Z 100).
Proof.
  intros row model g.
  exact (C6_confidence g (Stub.env 0) 75 (3 # 2) 5 30 1000 85
           Stub.identity_scaler model
           (ModernApp.input_data 75 (3 # 2) 5 30 1000 85) (PyInt 2) []
           eq_refl eq_refl eq_refl eq_refl eq_refl).
Defined.

(* ===================================================================== *)
(** * Validation in the free-text front end *)
(* ===================================================================== *)

(** C4: when at least one of the six fields is empty or still holds its
    placeholder text, the press shows the validation error and nothing
    else: [scaler.transform] and [model.predict] are not called and no
    prediction is displayed. *)
Theorem C4_unfilled_field_rejected (g : Globals) (env : Env)
    (temp vibration pressure inspection downtime technician : pystr)
    (k : nat) (f : pystr) :
  [temp; vibration; pressure; inspection; downtime; technician] !! k
    = Some f ->
  f = py "" \/ StreamlitApp.placeholders !! k = Some f ->
  let press :=
    StreamlitApp.on_predict g env temp vibration pressure inspection
      downtime technician in
  press = ([UiError StreamlitApp.fill_in_message], inr tt) /\
  (forall x, EvTransform x ∉ trace press) /\
  (forall x, EvPredict x ∉ trace press) /\
  (forall v, UiSuccess v ∉ trace press).
Proof.
  intros Hk Hf press.
  assert (E : press = validation_error).
  { apply text_rejects, any_unfilled. exists f. split.
    - by eapply list_elem_of_lookup_2.
    - destruct Hf as [->|Hf]; [reflexivity|by eapply unfilled_placeholder]. }
  split; [exact E|]. rewrite E. simpl.
  repeat split; intros x Hx; apply list_elem_of_singleton in Hx;
    discriminate.
Qed.

Lemma C4_unfilled_field_rejected_witness :
  let g :=
    Stub.loaded (Stub.constant_model (PyInt 2) None) Stub.identity_scaler in
  [py "75"; py "1.5"; py "e.g., 5.0"; py "30"; py "1000"; py "85"] !! 2%nat
    = Some (py "e.g., 5.0") /\
  StreamlitApp.placeholders !! 2%nat = Some (py "e.g., 5.0") /\
  StreamlitApp.on_predict g (Stub.env 0)
    (py "75") (py "1.5") (py "e.g., 5.0") (py "30") (py "1000") (py "85")
    = ([UiError StreamlitApp.fill_in_message], inr tt).
Proof.
  intros g. split; [reflexivity|]. split; [reflexivity|].
  exact (proj1 (C4_unfilled_field_rejected g (Stub.env 0)
                  (py "75") (py "1.5") (py "e.g., 5.0") (py "30")
                  (py "1000") (py "85") 2 (py "e.g., 5.0")
                  eq_refl (or_intror eq_refl))).
Defined.

(** C9: the check of line 34 is a prefix test on the stripped text.  A
    press is rejected with the validation error exactly when some field,
    once stripped, starts with "e.g." or is empty; so a field that begins
    with "e.g." (after any leading whitespace) is rejected whatever
    follows, and a field made of whitespace only counts as empty. *)
Theorem C9_placeholder_check :
  (forall (g : Globals) (env : Env)
          (temp vibration pressure inspection downtime technician : pystr),
     StreamlitApp.on_predict g env temp vibration pressure inspection
       downtime technician
       = ([UiError StreamlitApp.fill_in_message], inr tt) <->
     exists f,
       f ∈ [temp; vibration; pressure; inspection; downtime; technician] /\
       (startswith (strip f) (py "e.g.") = true \/ strip f = py "")) /\
  (forall ws rest : pystr,
     forallb isspace ws = true ->
     startswith (strip (ws ++ py "e.g." ++ rest)) (py "e.g.") = true) /\
  (forall s : pystr, forallb isspace s = true -> strip s = py "").
Proof.
  split; [|split].
  - intros g env temp vibration pressure inspection downtime technician.
    set (inputs :=
      [temp; vibration; pressure; inspection; downtime; technician]).
    split.
    + intros E.
      destruct (any StreamlitApp.unfilled inputs) eqn:Hany.
      * apply any_unfilled in Hany as (f & Hin & Hf).
        exists f. split; [done|]. by apply unfilled_iff.
      * by apply (text_passes g env) in Hany.
    + intros (f & Hin & Hf).
      apply text_rejects, any_unfilled.
      exists f. split; [done|]. by apply unfilled_iff.
  - intros ws rest Hws. by apply strip_eg.
  - intros s Hs. by apply strip_spaces.
Qed.

Lemma C9_placeholder_check_witness :
  StreamlitApp.on_predict Stub.demo (Stub.env 0)
    (py "75") (py "  e.g. anything") (py "5.0") (py "30") (py "1000")
    (py "85")
    = ([UiError StreamlitApp.fill_in_message], inr tt) /\
  strip [0x20; 0x09; 0xA0; 0x3000]%N = py "".
Proof.
  destruct C9_placeholder_check as (Hpress & Heg & Hws).
  split.
  - apply Hpress. exists (py "  e.g. anything"). split.
    + apply list_elem_of_further, list_elem_of_here.
    + left. apply (Heg (py "  ") (py " anything")). reflexivity.
  - apply Hws. reflexivity.
Defined.

(* ===================================================================== *)
(** * The dashboard *)
(* ===================================================================== *)

(** C10: for every label, also one outside {Low, Medium, High} such as
    the text of a non-integer class code, the risk score shown is one of
    25, 55 and 85: 85 exactly for "High", 55 exactly for "Medium" and 25
    for every other label; for a label that is none of the three the
    recommendation shown is the default "Monitor regularly". *)
Theorem C10_risk_score (l : pystr) (c : double) (t v p i d te : Q) :
  let board := ModernApp.render l c t v p i d te in
  ModernApp.metric_risk_score board ∈ [25%Z; 55%Z; 85%Z] /\
  (ModernApp.metric_risk_score board = 85%Z <-> l = py "High") /\
  (ModernApp.metric_risk_score board = 55%Z <-> l = py "Medium") /\
  (ModernApp.metric_risk_score board = 25%Z <->
     l <> py "High" /\ l <> py "Medium") /\
  (l ∉ priorities ->
     ModernApp.card_recommendation board = py "Monitor regularly" /\
     ModernApp.metric_risk_score board = 25%Z).
Proof.
  intros board. subst board. simpl.
  unfold ModernApp.risk_score, ModernApp.recommendation, dict_get, str_eqb.
  rewrite recommendations_lookup. unfold priorities.
  rewrite !not_elem_of_cons.
  assert (HM : py "Medium" <> py "High") by discriminate.
  repeat case_bool_decide; repeat case_decide; subst; simpl;
    rewrite !elem_of_cons;
    repeat split; try tauto; try discriminate; try congruence; intuition.
Qed.

Lemma C10_risk_score_witness :
  let model := Stub.constant_model (PyOther (py "1.0")) None in
  let g := Stub.loaded model Stub.identity_scaler in
  outcome (ModernApp.on_predict g (Stub.env 0) 75 (3 # 2) 5 30 1000 85)
    = inr (ModernApp.render (py "1.0") (double_of_Z 85) 75 (3 # 2) 5 30 1000 85) /\
  (py "1.0" ∉ priorities) /\
  ModernApp.card_recommendation
    (ModernApp.render (py "1.0") (double_of_Z 85) 75 (3 # 2) 5 30 1000 85)
    = py "Monitor regularly" /\
  ModernApp.metric_risk_score
    (ModernApp.render (py "1.0") (double_of_Z 85) 75 (3 # 2) 5 30 1000 85) = 25%Z.
Proof.
  intros model g. split; [reflexivity|].
  assert (H : py "1.0" ∉ priorities).
  { unfold priorities. rewrite !not_elem_of_cons.
    repeat split; try discriminate. apply not_elem_of_nil. }
  split; [exact H|].
  exact (proj2 (proj2 (proj2 (proj2
           (C10_risk_score (py "1.0") (double_of_Z 85)
              75 (3 # 2) 5 30 1000 85)))) H).
Defined.

(** The end-to-end scenario: readings 75, 1.5, 5.0, 30, 1000, 85 with a
    classifier that answers the class code 2 and has no probabilities. *)
Example scenario_code_2 :
  let g :=
    Stub.loaded (Stub.constant_model (PyInt 2) None) Stub.identity_scaler in
  let press :=
    ModernApp.on_predict g (Stub.env 0) 75 (3 # 2) 5 30 1000 85 in
  trace press =
    [EvSleep 2;
     EvTransform [[75; 3 # 2; 5; 30; 1000; 85]]%Q;
     EvPredict [[75; 3 # 2; 5; 30; 1000; 85]]%Q] /\
  exists board,
    outcome press = inr board /\
    ModernApp.card_priority board = py "High" /\
    ModernApp.card_confidence board = double_of_Z 85 /\
    ModernApp.card_recommendation board = py "Immediate action required" /\
    ModernApp.metric_risk_score board = 85%Z /\
    ModernApp.risk_delta board = py "High Risk".
Proof.
  split; [reflexivity|]. eexists. split; [reflexivity|].
  repeat split; vm_compute; reflexivity.
Qed.

(** The same readings in demo mode, with the draw 4 (index 1). *)
Example scenario_demo :
  ModernApp.predict_stage Stub.demo (Stub.env 4) 75 (3 # 2) 5 30 1000 85
    = ([EvRandomChoice priorities], inr (py "Medium", double_of_Z 75)) /\
  StreamlitApp.on_predict Stub.demo (Stub.env 4)
    (py "75") (py "1.5") (py "5.0") (py "30") (py "1000") (py "85")
    = ([EvRandomChoice priorities; UiSuccess (PyStr (py "Medium"));
        UiInputSummary [py "75"; py "1.5"; py "5.0"; py "30"; py "1000";
                        py "85"]], inr tt).
Proof. split; vm_compute; reflexivity. Qed.

(** A classifier whose [predict_proba] raises: the press goes through
    with the confidence 85. *)
Example scenario_proba_raises :
  ModernApp.predict_stage
    (Stub.loaded (Stub.raising_proba_model (PyInt 0)) Stub.identity_scaler)
    (Stub.env 0) 75 (3 # 2) 5 30 1000 85
  = ([EvTransform [[75; 3 # 2; 5; 30; 1000; 85]]%Q;
      EvPredict [[75; 3 # 2; 5; 30; 1000; 85]]%Q;
      EvPredictProba [[75; 3 # 2; 5; 30; 1000; 85]]%Q],
     inr (py "Low", double_of_Z 85)).
Proof. vm_compute. reflexivity. Qed.

(** Text that is not a number passes the check of line 34 and ends in
    the handler of line 58. *)
Example scenario_not_a_number :
  StreamlitApp.on_predict Stub.demo (Stub.env 0)
    (py "hot") (py "1.5") (py "5.0") (py "30") (py "1000") (py "85")
  = ([UiError (py "An error occurred: could not convert string to float: hot")],
     inr tt).
Proof. vm_compute. reflexivity. Qed.

(* ===================================================================== *)
(** * Which external calls a press makes *)
(* ===================================================================== *)

Section Calls.

Variables (g : Globals) (env : Env).

#[local] Arguments bind : simpl never.

(** The calls of the loaded branch, which both front ends write the same
    way up to what they do with the predictions. *)
Lemma loaded_branch_events {B} (X : matrix)
    (k : Model -> matrix -> list PyVal -> M B) (ev : Event) :
  ev ∈ trace
    (scaler <- deref "scaler" (g_scaler g) ;;
     input_scaled <- call (EvTransform X) (transform scaler X) ;;
     model <- deref "model" (g_model g) ;;
     predictions <- call (EvPredict input_scaled) (predict model input_scaled) ;;
     k model input_scaled predictions) ->
  exists s, g_scaler g = Some s /\
    (ev = EvTransform X \/
     exists scaled, transform s X = inr scaled /\
       (ev = EvPredict scaled \/
        exists model predictions,
          g_model g = Some model /\
          predict model scaled = inr predictions /\
          ev ∈ trace (k model scaled predictions))).
Proof.
  destruct (g_scaler g) as [s|]; [|intros H; by apply elem_of_nil in H].
  unfold deref at 1. rewrite bind_ret, trace_bind. simpl.
  intros [->|H]%elem_of_cons; exists s; (split; [done|]); [by left|].
  right. destruct (transform s X) as [e|scaled];
    [by apply elem_of_nil in H|].
  exists scaled. split; [done|].
  destruct (g_model g) as [model|]; [|by apply elem_of_nil in H].
  unfold deref in H. rewrite bind_ret, trace_bind in H. simpl in H.
  apply elem_of_cons in H as [->|H]; [by left|].
  right. destruct (predict model scaled) as [e|predictions] eqn:Hp;
    [by apply elem_of_nil in H|].
  by exists model, predictions.
Qed.

Lemma loaded_branch_transform {B} (X : matrix)
    (k : Model -> matrix -> list PyVal -> M B) (s : Scaler) :
  g_scaler g = Some s ->
  EvTransform X ∈ trace
    (scaler <- deref "scaler" (g_scaler g) ;;
     input_scaled <- call (EvTransform X) (transform scaler X) ;;
     model <- deref "model" (g_model g) ;;
     predictions <- call (EvPredict input_scaled) (predict model input_scaled) ;;
     k model input_scaled predictions).
Proof.
  intros ->. unfold deref at 1. rewrite bind_ret, trace_bind. simpl.
  apply list_elem_of_here.
Qed.

Lemma loaded_branch_predict {B} (X : matrix)
    (k : Model -> matrix -> list PyVal -> M B)
    (s : Scaler) (model : Model) (scaled : matrix) :
  g_scaler g = Some s -> transform s X = inr scaled ->
  g_model g = Some model ->
  EvPredict scaled ∈ trace
    (scaler <- deref "scaler" (g_scaler g) ;;
     input_scaled <- call (EvTransform X) (transform scaler X) ;;
     model <- deref "model" (g_model g) ;;
     predictions <- call (EvPredict input_scaled) (predict model input_scaled) ;;
     k model input_scaled predictions).
Proof.
  intros Hs Ht Hm. rewrite Hs, Hm. unfold deref.
  rewrite bind_ret, trace_bind. simpl. rewrite Ht.
  apply list_elem_of_further.
  rewrite bind_ret, trace_bind. simpl. apply list_elem_of_here.
Qed.

Lemma modern_press_trace (t v p i d te : Q) :
  trace (ModernApp.on_predict g env t v p i d te) =
    EvSleep 2 :: trace (ModernApp.predict_stage g env t v p i d te).
Proof.
  unfold ModernApp.on_predict.
  destruct (ModernApp.predict_stage g env t v p i d te) as [tr [e|[l c]]];
    simpl; by rewrite ?app_nil_r.
Qed.

Lemma modern_stage_events (t v p i d te : Q) (ev : Event) :
  ev ∈ trace (ModernApp.predict_stage g env t v p i d te) ->
  if MODEL_LOADED g then
    exists s, g_scaler g = Some s /\
      (ev = EvTransform (ModernApp.input_data t v p i d te) \/
       exists scaled,
         transform s (ModernApp.input_data t v p i d te) = inr scaled /\
         (ev = EvPredict scaled \/ ev = EvPredictProba scaled))
  else ev = EvRandomChoice priorities.
Proof.
  unfold ModernApp.predict_stage. destruct (MODEL_LOADED g).
  - intros H. apply loaded_branch_events in H as (s & Hs & H).
    exists s. split; [done|].
    destruct H as [->|(scaled & Ht & H)]; [by left|].
    right. exists scaled. split; [done|].
    destruct H as [->|(model & predictions & Hm & Hp & H)]; [by left|].
    right. destruct predictions as [|code rest];
      [by apply elem_of_nil in H|].
    unfold getitem0 in H. rewrite bind_ret, trace_bind in H.
    rewrite confidence_of_spec in H. simpl in H. rewrite app_nil_r in H.
    destruct (predict_proba model); [|by apply elem_of_nil in H].
    by apply list_elem_of_singleton in H.
  - destruct (random_choice_priorities env) as (l & _ & ->).
    rewrite trace_bind. simpl. by intros ->%list_elem_of_singleton.
Qed.

Section TextCalls.

Variables (temp vibration pressure inspection downtime technician : pystr).

Let inputs : list pystr :=
  [temp; vibration; pressure; inspection; downtime; technician].

Lemma text_press_trace :
  trace (StreamlitApp.on_predict g env temp vibration pressure inspection
           downtime technician) =
    if any StreamlitApp.unfilled inputs then
      [UiError StreamlitApp.fill_in_message]
    else
      let stage :=
        StreamlitApp.predict_stage g env temp vibration pressure inspection
          downtime technician in
      trace stage ++
        match outcome stage with
        | inl e => [UiError (py "An error occurred: " ++ exn_str e)]
        | inr v => [UiSuccess v; UiInputSummary inputs]
        end.
Proof.
  unfold StreamlitApp.on_predict. fold inputs.
  destruct (any StreamlitApp.unfilled inputs); [reflexivity|].
  cbv zeta.
  by destruct (StreamlitApp.predict_stage g env temp vibration pressure
                 inspection downtime technician) as [tr [e|v]].
Qed.

(** The handler of line 58 catches whatever the press raised. *)
Lemma text_press_returns :
  outcome (StreamlitApp.on_predict g env temp vibration pressure inspection
             downtime technician) = inr tt.
Proof.
  unfold StreamlitApp.on_predict. fold inputs.
  destruct (any StreamlitApp.unfilled inputs); [reflexivity|].
  by destruct (StreamlitApp.predict_stage g env temp vibration pressure
                 inspection downtime technician) as [tr [e|v]].
Qed.

Lemma text_stage_events (ev : Event) :
  ev ∈ trace (StreamlitApp.predict_stage g env temp vibration pressure
                inspection downtime technician) ->
  exists f1 f2 f3 f4 f5 f6,
    float env temp = inr f1 /\ float env vibration = inr f2 /\
    float env pressure = inr f3 /\ float env inspection = inr f4 /\
    float env downtime = inr f5 /\ float env technician = inr f6 /\
    if MODEL_LOADED g then
      exists s, g_scaler g = Some s /\
        (ev = EvTransform [[f1; f2; f3; f4; f5; f6]] \/
         exists scaled,
           transform s [[f1; f2; f3; f4; f5; f6]] = inr scaled /\
           ev = EvPredict scaled)
    else ev = EvRandomChoice priorities.
Proof.
  destruct (float env temp) as [?|f1] eqn:H1;
    [unfold StreamlitApp.predict_stage; rewrite H1;
     intros H; by apply elem_of_nil in H|].
  destruct (float env vibration) as [?|f2] eqn:H2;
    [unfold StreamlitApp.predict_stage; rewrite H1, H2;
     intros H; by apply elem_of_nil in H|].
  destruct (float env pressure) as [?|f3] eqn:H3;
    [unfold StreamlitApp.predict_stage; rewrite H1, H2, H3;
     intros H; by apply elem_of_nil in H|].
  destruct (float env inspection) as [?|f4] eqn:H4;
    [unfold StreamlitApp.predict_stage; rewrite H1, H2, H3, H4;
     intros H; by apply elem_of_nil in H|].
  destruct (float env downtime) as [?|f5] eqn:H5;
    [unfold StreamlitApp.predict_stage; rewrite H1, H2, H3, H4, H5;
     intros H; by apply elem_of_nil in H|].
  destruct (float env technician) as [?|f6] eqn:H6;
    [unfold StreamlitApp.predict_stage; rewrite H1, H2, H3, H4, H5, H6;
     intros H; by apply elem_of_nil in H|].
  rewrite (text_stage_parsed g env _ _ _ _ _ _ f1 f2 f3 f4 f5 f6
             H1 H2 H3 H4 H5 H6).
  cbv zeta. intros H. exists f1, f2, f3, f4, f5, f6.
  repeat (split; [done|]).
  destruct (MODEL_LOADED g).
  - apply loaded_branch_events in H as (s & Hs & H).
    exists s. split; [done|].
    destruct H as [->|(scaled & Ht & H)]; [by left|].
    right. exists scaled. split; [done|].
    destruct H as [->|(model & predictions & Hm & Hp & H)]; [done|].
    destruct predictions; by apply elem_of_nil in H.
  - destruct (random_choice_priorities env) as (l & _ & E).
    rewrite E, trace_bind in H. simpl in H.
    by apply list_elem_of_singleton in H.
Qed.

(** Every model-side event of a press comes from its prediction stage. *)
Lemma text_press_calls (ev : Event) :
  ev ∈ trace (StreamlitApp.on_predict g env temp vibration pressure
                inspection downtime technician) ->
  (forall x, ev <> EvTransform x) /\ (forall x, ev <> EvPredict x) \/
  ev ∈ trace (StreamlitApp.predict_stage g env temp vibration pressure
                inspection downtime technician).
Proof.
  rewrite text_press_trace.
  destruct (any StreamlitApp.unfilled inputs).
  - intros ->%list_elem_of_singleton. by left.
  - cbv zeta. intros [H|H]%elem_of_app; [by right|]. left.
    destruct (outcome _) as [e|v].
    + apply list_elem_of_singleton in H as ->. done.
    + apply elem_of_cons in H as [->|H]; [done|].
      apply list_elem_of_singleton in H as ->. done.
Qed.

End TextCalls.

End Calls.

(** C8: in both front ends the array handed to [scaler.transform] is the
    single row of the six fields in the order temperature, vibration,
    pressure, inspection duration, downtime cost, technician
    availability (parsed with [float] in the free-text front end), and
    the array handed to [model.predict] is what the scaler returned for
    that row; with the artifacts loaded both calls are made:
    [scaler.transform] on the row and, once it has returned,
    [model.predict] on its answer. *)
Theorem C8_feature_row (g : Globals) (env : Env) :
  (forall t v p i d te : Q,
     let row := [[t; v; p; i; d; te]] in
     let press := ModernApp.on_predict g env t v p i d te in
     (forall x, EvTransform x ∈ trace press -> x = row) /\
     (forall x, EvPredict x ∈ trace press ->
        exists s, g_scaler g = Some s /\ transform s row = inr x) /\
     (forall s, MODEL_LOADED g = true -> g_scaler g = Some s ->
        EvTransform row ∈ trace press) /\
     (forall s model scaled,
        MODEL_LOADED g = true -> g_scaler g = Some s ->
        g_model g = Some model -> transform s row = inr scaled ->
        EvPredict scaled ∈ trace press)) /\
  (forall temp vibration pressure inspection downtime technician : pystr,
     let press :=
       StreamlitApp.on_predict g env temp vibration pressure inspection
         downtime technician in
     (forall x, EvTransform x ∈ trace press \/ EvPredict x ∈ trace press ->
        exists f1 f2 f3 f4 f5 f6,
          float env temp = inr f1 /\ float env vibration = inr f2 /\
          float env pressure = inr f3 /\ float env inspection = inr f4 /\
          float env downtime = inr f5 /\ float env technician = inr f6 /\
          (EvTransform x ∈ trace press -> x = [[f1; f2; f3; f4; f5; f6]]) /\
          (EvPredict x ∈ trace press ->
             exists s, g_scaler g = Some s /\
               transform s [[f1; f2; f3; f4; f5; f6]] = inr x)) /\
     (forall s f1 f2 f3 f4 f5 f6,
        MODEL_LOADED g = true -> g_scaler g = Some s ->
        any StreamlitApp.unfilled
          [temp; vibration; pressure; inspection; downtime; technician]
          = false ->
        float env temp = inr f1 -> float env vibration = inr f2 ->
        float env pressure = inr f3 -> float env inspection = inr f4 ->
        float env downtime = inr f5 -> float env technician = inr f6 ->
        EvTransform [[f1; f2; f3; f4; f5; f6]] ∈ trace press) /\
     (forall s model scaled f1 f2 f3 f4 f5 f6,
        MODEL_LOADED g = true -> g_scaler g = Some s ->
        g_model g = Some model ->
        any StreamlitApp.unfilled
          [temp; vibration; pressure; inspection; downtime; technician]
          = false ->
        float env temp = inr f1 -> float env vibration = inr f2 ->
        float env pressure = inr f3 -> float env inspection = inr f4 ->
        float env downtime = inr f5 -> float env technician = inr f6 ->
        transform s [[f1; f2; f3; f4; f5; f6]] = inr scaled ->
        EvPredict scaled ∈ trace press)).
Proof.
  split.
  - intros t v p i d te row press. subst press.
    rewrite modern_press_trace.
    assert (Hev : forall ev,
      ev ∈ EvSleep 2 :: trace (ModernApp.predict_stage g env t v p i d te) ->
      ev <> EvSleep 2 ->
      ev ∈ trace (ModernApp.predict_stage g env t v p i d te)).
    { intros ev [->|H]%elem_of_cons Hne; [done|exact H]. }
    split; [|split; [|split]].
    + intros x H. apply Hev in H; [|done].
      apply modern_stage_events in H.
      destruct (MODEL_LOADED g); [|done].
      destruct H as (s & _ & [[= ->]|(scaled & _ & [H|H])]); done.
    + intros x H. apply Hev in H; [|done].
      apply modern_stage_events in H.
      destruct (MODEL_LOADED g); [|done].
      destruct H as (s & Hs & [H|(scaled & Ht & [[= ->]|H])]); try done.
      by exists s.
    + intros s Hl Hs. apply list_elem_of_further.
      unfold ModernApp.predict_stage. rewrite Hl.
      by eapply loaded_branch_transform.
    + intros s model scaled Hl Hs Hm Ht. apply list_elem_of_further.
      unfold ModernApp.predict_stage. rewrite Hl.
      by eapply loaded_branch_predict.
  - intros temp vibration pressure inspection downtime technician press.
    subst press. split; [|split].
    + intros x Hx.
      assert (H : exists ev, (ev = EvTransform x \/ ev = EvPredict x) /\
                ev ∈ trace (StreamlitApp.predict_stage g env temp vibration
                              pressure inspection downtime technician)).
      { destruct Hx as [H|H];
          (destruct (text_press_calls g env _ _ _ _ _ _ _ H)
             as [[H1 H2]|H']; [first [by destruct (H1 x)|by destruct (H2 x)]|]);
          eexists; (split; [|exact H']); auto. }
      destruct H as (ev & _ & H).
      apply text_stage_events in H
        as (f1 & f2 & f3 & f4 & f5 & f6
            & H1 & H2 & H3 & H4 & H5 & H6 & _).
      exists f1, f2, f3, f4, f5, f6.
      repeat (split; [done|]). split.
      * intros H.
        destruct (text_press_calls g env _ _ _ _ _ _ _ H)
          as [[N _]|H']; [by destruct (N x)|].
        apply text_stage_events in H'
          as (f1' & f2' & f3' & f4' & f5' & f6'
              & H1' & H2' & H3' & H4' & H5' & H6' & H').
        assert (f1' = f1 /\ f2' = f2 /\ f3' = f3 /\ f4' = f4 /\ f5' = f5
                /\ f6' = f6) as (-> & -> & -> & -> & -> & ->)
          by (repeat split; congruence).
        destruct (MODEL_LOADED g); [|done].
        destruct H' as (s & _ & [[= ->]|(scaled & _ & H')]); done.
      * intros H.
        destruct (text_press_calls g env _ _ _ _ _ _ _ H)
          as [[_ N]|H']; [by destruct (N x)|].
        apply text_stage_events in H'
          as (f1' & f2' & f3' & f4' & f5' & f6'
              & H1' & H2' & H3' & H4' & H5' & H6' & H').
        assert (f1' = f1 /\ f2' = f2 /\ f3' = f3 /\ f4' = f4 /\ f5' = f5
                /\ f6' = f6) as (-> & -> & -> & -> & -> & ->)
          by (repeat split; congruence).
        destruct (MODEL_LOADED g); [|done].
        destruct H' as (s & Hs & [H'|(scaled & Ht & [= ->])]); [done|].
        by exists s.
    + intros s f1 f2 f3 f4 f5 f6 Hl Hs Hany H1 H2 H3 H4 H5 H6.
      rewrite text_press_trace, Hany. cbv zeta.
      apply elem_of_app. left.
      rewrite (text_stage_parsed g env _ _ _ _ _ _ f1 f2 f3 f4 f5 f6
                 H1 H2 H3 H4 H5 H6).
      cbv zeta. rewrite Hl. by eapply loaded_branch_transform.
    + intros s model scaled f1 f2 f3 f4 f5 f6 Hl Hs Hm Hany
        H1 H2 H3 H4 H5 H6 Ht.
      rewrite text_press_trace, Hany. cbv zeta.
      apply elem_of_app. left.
      rewrite (text_stage_parsed g env _ _ _ _ _ _ f1 f2 f3 f4 f5 f6
                 H1 H2 H3 H4 H5 H6).
      cbv zeta. rewrite Hl. by eapply loaded_branch_predict.
Qed.

Lemma C8_feature_row_witness :
  let model := Stub.constant_model (PyInt 2) None in
  let g := Stub.loaded model Stub.identity_scaler in
  let modern_press :=
    ModernApp.on_predict g (Stub.env 0) 75 (3 # 2) 5 30 1000 85 in
  let text_press :=
    StreamlitApp.on_predict g (Stub.env 0)
      (py "75") (py "1.5") (py "5.0") (py "30") (py "1000") (py "85") in
  (EvTransform [[75; 3 # 2; 5; 30; 1000; 85]]%Q ∈ trace modern_press /\
   EvPredict [[75; 3 # 2; 5; 30; 1000; 85]]%Q ∈ trace modern_press) /\
  (EvTransform [[75; 15 # 10; 50 # 10; 30; 1000; 85]]%Q ∈ trace text_press /\
   EvPredict [[75; 15 # 10; 50 # 10; 30; 1000; 85]]%Q ∈ trace text_press).
Proof.
  intros model g modern_press text_press.
  destruct (C8_feature_row g (Stub.env 0)) as [Hm Ht].
  destruct (Hm 75 (3 # 2) 5 30 1000 85)%Q as (_ & _ & Hm1 & Hm2).
  destruct (Ht (py "75") (py "1.5") (py "5.0") (py "30") (py "1000")
              (py "85")) as (_ & Ht1 & Ht2).
  split; split.
  - apply (Hm1 Stub.identity_scaler); reflexivity.
  - apply (Hm2 Stub.identity_scaler model); reflexivity.
  - apply (Ht1 Stub.identity_scaler); reflexivity.
  - apply (Ht2 Stub.identity_scaler model _
             75 (15 # 10) (50 # 10) 30 1000 85)%Q; reflexivity.
Defined.

(* ===================================================================== *)
(** * The artifact loader *)
(* ===================================================================== *)

(** C7: the loading code never lets a failure out.  When both files load,
    both artifacts are exposed and the flag is true; when either load
    fails the flag is false and the application goes on in demo mode:
    the structured front end answers every press with a label from
    {Low, Medium, High} and confidence 75, and a press of the free-text
    front end returns without calling the scaler or the classifier. *)
Theorem C7_artifact_loader (fs : Storage) :
  exists g_modern g_text : Globals,
    outcome (ModernApp.startup fs) = inr g_modern /\
    outcome (StreamlitApp.startup fs) = inr g_text /\
    match model_pkl fs, scaler_pkl fs with
    | inr model, inr scaler =>
        g_modern = {| g_model := Some model; g_scaler := Some scaler;
                      MODEL_LOADED := true |} /\
        g_text = g_modern
    | _, _ =>
        MODEL_LOADED g_modern = false /\ MODEL_LOADED g_text = false /\
        (forall env t v p i d te,
           exists l, l ∈ priorities /\
             ModernApp.predict_stage g_modern env t v p i d te =
               ([EvRandomChoice priorities], inr (l, double_of_Z 75))) /\
        (forall env temp vibration pressure inspection downtime technician,
           let press :=
             StreamlitApp.on_predict g_text env temp vibration pressure
               inspection downtime technician in
           outcome press = inr tt /\
           forall x, (EvTransform x ∉ trace press) /\ (EvPredict x ∉ trace press))
    end.
Proof.
  assert (Hdemo : forall gm gt : Globals,
    MODEL_LOADED gm = false -> MODEL_LOADED gt = false ->
    MODEL_LOADED gm = false /\ MODEL_LOADED gt = false /\
    (forall env t v p i d te,
       exists l, l ∈ priorities /\
         ModernApp.predict_stage gm env t v p i d te =
           ([EvRandomChoice priorities], inr (l, double_of_Z 75))) /\
    (forall env temp vibration pressure inspection downtime technician,
       let press :=
         StreamlitApp.on_predict gt env temp vibration pressure
           inspection downtime technician in
       outcome press = inr tt /\
       forall x, (EvTransform x ∉ trace press) /\ (EvPredict x ∉ trace press))).
  { intros gm gt Hm Ht. split; [done|]. split; [done|]. split.
    - intros env t v p i d te. by apply modern_demo_stage.
    - intros env temp vibration pressure inspection downtime technician press.
      split; [apply text_press_returns|].
      intros x. split; intros H;
        (destruct (text_press_calls gt env _ _ _ _ _ _ _ H)
           as [[N1 N2]|H'];
         [first [by destruct (N1 x)|by destruct (N2 x)]|]);
        apply text_stage_events in H'
          as (? & ? & ? & ? & ? & ? & _ & _ & _ & _ & _ & _ & H');
        rewrite Ht in H'; discriminate. }
  unfold ModernApp.startup, ModernApp.load_models, StreamlitApp.startup.
  destruct (model_pkl fs) as [e|model], (scaler_pkl fs) as [e'|scaler];
    simpl; eexists _, _; (split; [reflexivity|]); (split; [reflexivity|]);
    first [by apply Hdemo | done].
Qed.

Lemma C7_artifact_loader_witness :
  (let model := Stub.constant_model (PyInt 0) None in
   outcome (ModernApp.startup (Stub.both_files model Stub.identity_scaler))
     = inr (Stub.loaded model Stub.identity_scaler)) /\
  (exists g, outcome (ModernApp.startup Stub.no_files) = inr g /\
             MODEL_LOADED g = false) /\
  (exists g, outcome (StreamlitApp.startup
                        (Stub.corrupt_scaler
                           (Stub.constant_model (PyInt 0) None))) = inr g /\
             MODEL_LOADED g = false).
Proof.
  split; [|split].
  - intros model.
    destruct (C7_artifact_loader
                (Stub.both_files model Stub.identity_scaler))
      as (gm & gt & Hm & _ & Hg & _).
    rewrite Hm, Hg. reflexivity.
  - destruct (C7_artifact_loader Stub.no_files)
      as (gm & gt & Hm & _ & Hd & _).
    by exists gm.
  - destruct (C7_artifact_loader
                (Stub.corrupt_scaler (Stub.constant_model (PyInt 0) None)))
      as (gm & gt & _ & Ht & _ & Hd & _).
    by exists gt.
Defined.

(* ===================================================================== *)
(** * More on the check of line 34 *)
(* ===================================================================== *)

Section MoreStrings.

Implicit Types s t p ws : pystr.

Lemma all_space_app ws t :
  all_space (ws ++ t) = all_space ws && all_space t.
Proof. unfold all_space. apply forallb_app. Qed.

Lemma all_space_rev ws : all_space (rev ws) = all_space ws.
Proof.
  induction ws as [|c ws IH]; [done|].
  simpl. rewrite all_space_app, IH. simpl.
  rewrite andb_true_r. apply andb_comm.
Qed.

Lemma lstrip_app_all_space ws s :
  all_space ws = true -> lstrip (ws ++ s) = lstrip s.
Proof.
  induction ws as [|c ws IH]; [done|].
  simpl. intros [Hc Hws]%andb_prop. rewrite Hc. auto.
Qed.

Lemma lstrip_nil_iff s : lstrip s = [] <-> all_space s = true.
Proof.
  induction s as [|c s IH]; simpl; [done|].
  destruct (isspace c); simpl; [exact IH|]. split; discriminate.
Qed.

Lemma lstrip_head c rest s : lstrip s = c :: rest -> isspace c = false.
Proof.
  induction s as [|a s IH]; simpl; [discriminate|].
  destruct (isspace a) eqn:Ha; [exact IH|]. by intros [= <- _].
Qed.

(** Stripping on the left removes a whitespace prefix and nothing else. *)
Lemma lstrip_split s : exists ws, all_space ws = true /\ s = ws ++ lstrip s.
Proof.
  induction s as [|a s (ws & Hws & IH)]; simpl.
  - by exists [].
  - destruct (isspace a) eqn:Ha.
    + exists (a :: ws). simpl. rewrite Ha, Hws. split; [done|].
      f_equal. exact IH.
    + by exists [].
Qed.

Lemma lstrip_app_r c rest s t :
  lstrip s = c :: rest -> lstrip (s ++ t) = (c :: rest) ++ t.
Proof.
  induction s as [|a s IH]; simpl; [discriminate|].
  destruct (isspace a); [exact IH|]. by intros [= -> ->].
Qed.

(** Stripping on the right removes a whitespace suffix and nothing else. *)
Lemma rstrip_split t : exists ws, all_space ws = true /\ t = rstrip t ++ ws.
Proof.
  destruct (lstrip_split (rev t)) as (ws & Hws & E).
  exists (rev ws). rewrite all_space_rev. split; [done|].
  unfold rstrip. rewrite <- rev_app_distr, <- E. by rewrite rev_involutive.
Qed.

Lemma rstrip_head c rest :
  isspace c = false -> exists w, rstrip (c :: rest) = c :: w.
Proof. intros Hc. exact (rstrip_app_nonspace [] c rest Hc). Qed.

(** Appending whitespace does not change a prefix test against a prefix
    that holds no whitespace. *)
Lemma startswith_app_space p : forall t ws,
  forallb (fun c => negb (isspace c)) p = true ->
  all_space ws = true ->
  startswith (t ++ ws) p = startswith t p.
Proof.
  induction p as [|a p IH]; intros t ws Hp Hws; [done|].
  simpl in Hp. apply andb_prop in Hp as [Ha Hp].
  destruct t as [|b t]; simpl.
  - destruct ws as [|b ws]; [done|].
    simpl in Hws. apply andb_prop in Hws as [Hb _].
    destruct (N.eqb_spec b a) as [->|]; [|done].
    rewrite Hb in Ha. discriminate.
  - by rewrite IH.
Qed.

(** The check only looks at the text after its leading whitespace. *)
Lemma unfilled_lstrip s :
  StreamlitApp.unfilled s =
    startswith (lstrip s) (py "e.g.") || all_space s.
Proof.
  unfold StreamlitApp.unfilled, strip.
  destruct (lstrip s) as [|c rest] eqn:E.
  - apply lstrip_nil_iff in E. by rewrite E.
  - pose proof (lstrip_head c rest s E) as Hc.
    destruct (rstrip_head c rest Hc) as [w Hw].
    destruct (rstrip_split (c :: rest)) as (ws & Hws & Ht).
    assert (Hs : all_space s = false).
    { destruct (all_space s) eqn:A; [|done].
      apply lstrip_nil_iff in A. congruence. }
    rewrite Hs. set (r := rstrip (c :: rest)) in *. rewrite Ht.
    rewrite (startswith_app_space (py "e.g.") r ws eq_refl Hws).
    rewrite Hw. reflexivity.
Qed.

End MoreStrings.

(** X1: the check of line 34 depends only on how the text begins once
    its leading whitespace is dropped: a field is unfilled exactly when it
    is blank or that remainder begins with "e.g."; nothing that follows,
    and no trailing whitespace, changes the verdict, and a field whose
    first visible character is not the letter e is never unfilled. *)
Theorem X1_check_reads_the_beginning (s : pystr) :
  (StreamlitApp.unfilled s = true <->
     all_space s = true \/ startswith (lstrip s) (py "e.g.") = true) /\
  (forall c rest,
     lstrip s = c :: rest -> c <> 101%N -> StreamlitApp.unfilled s = false).
Proof.
  rewrite unfilled_lstrip. split.
  - rewrite orb_true_iff. tauto.
  - intros c rest E Hc. rewrite E.
    change (py "e.g.") with [101; 46; 103; 46]%N. cbn [startswith].
    apply N.eqb_neq in Hc. rewrite Hc. simpl.
    destruct (all_space s) eqn:A; [|done].
    apply lstrip_nil_iff in A. congruence.
Qed.

Lemma X1_check_reads_the_beginning_witness :
  lstrip (py "  75 ") = 55%N :: py "5 " /\
  StreamlitApp.unfilled (py "  75 ") = false.
Proof.
  split; [reflexivity|].
  exact (proj2 (X1_check_reads_the_beginning (py "  75 "))
           55%N (py "5 ") eq_refl ltac:(discriminate)).
Defined.

(** X2: whitespace around a field never changes the check: with
    whitespace added before and after, a text is unfilled exactly when it
    was. *)
Theorem X2_check_ignores_outer_whitespace (ws1 s ws2 : pystr) :
  all_space ws1 = true -> all_space ws2 = true ->
  StreamlitApp.unfilled (ws1 ++ s ++ ws2) = StreamlitApp.unfilled s.
Proof.
  intros H1 H2. rewrite !unfilled_lstrip.
  rewrite (lstrip_app_all_space ws1 _ H1).
  rewrite !all_space_app, H1, H2, andb_true_r, andb_true_l.
  destruct (lstrip s) as [|c rest] eqn:E.
  - apply lstrip_nil_iff in E. rewrite E.
    by rewrite !orb_true_r.
  - rewrite (lstrip_app_r c rest s ws2 E).
    by rewrite (startswith_app_space (py "e.g.") _ ws2 eq_refl H2).
Qed.

Lemma X2_check_ignores_outer_whitespace_witness :
  StreamlitApp.unfilled ([0x09; 0x20]%N ++ py "e.g., 75" ++ [0xA0]%N)
    = StreamlitApp.unfilled (py "e.g., 75").
Proof.
  exact (X2_check_ignores_outer_whitespace
           [0x09; 0x20]%N (py "e.g., 75") [0xA0]%N eq_refl eq_refl).
Defined.

(* ===================================================================== *)
(** * A press of the free-text front end, case by case *)
(* ===================================================================== *)

Lemma text_stage_event_kinds (g : Globals) (env : Env)
    (temp vibration pressure inspection downtime technician : pystr)
    (ev : Event) :
  ev ∈ trace (StreamlitApp.predict_stage g env temp vibration pressure
                inspection downtime technician) ->
  (exists x, ev = EvTransform x) \/ (exists x, ev = EvPredict x) \/
  ev = EvRandomChoice priorities.
Proof.
  intros H. apply text_stage_events in H
    as (f1 & f2 & f3 & f4 & f5 & f6 & _ & _ & _ & _ & _ & _ & H).
  destruct (MODEL_LOADED g); [|by right; right].
  destruct H as (s & _ & [->|(scaled & _ & ->)]); eauto.
Qed.

(** X3: a field that passes the check of line 34 but that [float]
    refuses stops the press at the first such field: the only thing shown
    is the message of line 59 for that field's exception, with no call to
    the scaler or the classifier, no random draw and no prediction. *)
Theorem X3_unparsable_field (g : Globals) (env : Env)
    (temp vibration pressure inspection downtime technician : pystr) :
  let inputs :=
    [temp; vibration; pressure; inspection; downtime; technician] in
  any StreamlitApp.unfilled inputs = false ->
  Exists (fun f => ~ parses env f) inputs ->
  exists (k : nat) (f : pystr) (e : Exn),
    inputs !! k = Some f /\ float env f = inl e /\
    Forall (parses env) (take k inputs) /\
    StreamlitApp.on_predict g env temp vibration pressure inspection
      downtime technician = ([UiError (error_message e)], inr tt).
Proof.
  intros inputs Hany Hex. unfold inputs in *. clear inputs.
  assert (Hstop : forall (k : nat) (f : pystr) (e : Exn),
    [temp; vibration; pressure; inspection; downtime; technician] !! k
      = Some f ->
    float env f = inl e ->
    Forall (parses env)
      (take k [temp; vibration; pressure; inspection; downtime; technician]) ->
    StreamlitApp.predict_stage g env temp vibration pressure inspection
      downtime technician = ([], inl e) ->
    exists (k : nat) (f : pystr) (e : Exn),
      [temp; vibration; pressure; inspection; downtime; technician] !! k
        = Some f /\ float env f = inl e /\
      Forall (parses env)
        (take k [temp; vibration; pressure; inspection; downtime; technician])
      /\ StreamlitApp.on_predict g env temp vibration pressure inspection
           downtime technician = ([UiError (error_message e)], inr tt)).
  { intros k f e Hk Hf Hall Hstage. exists k, f, e.
    repeat (split; [done|]).
    unfold StreamlitApp.on_predict. by rewrite Hany, Hstage. }
  destruct (float env temp) as [e|f1] eqn:H1.
  { apply (Hstop 0%nat temp e);
      [done|done|repeat constructor; unfold parses; eauto|].
    unfold StreamlitApp.predict_stage. by rewrite H1. }
  destruct (float env vibration) as [e|f2] eqn:H2.
  { apply (Hstop 1%nat vibration e);
      [done|done|repeat constructor; unfold parses; eauto|].
    unfold StreamlitApp.predict_stage. by rewrite H1, H2. }
  destruct (float env pressure) as [e|f3] eqn:H3.
  { apply (Hstop 2%nat pressure e);
      [done|done|repeat constructor; unfold parses; eauto|].
    unfold StreamlitApp.predict_stage. by rewrite H1, H2, H3. }
  destruct (float env inspection) as [e|f4] eqn:H4.
  { apply (Hstop 3%nat inspection e);
      [done|done|repeat constructor; unfold parses; eauto|].
    unfold StreamlitApp.predict_stage. by rewrite H1, H2, H3, H4. }
  destruct (float env downtime) as [e|f5] eqn:H5.
  { apply (Hstop 4%nat downtime e);
      [done|done|repeat constructor; unfold parses; eauto|].
    unfold StreamlitApp.predict_stage. by rewrite H1, H2, H3, H4, H5. }
  destruct (float env technician) as [e|f6] eqn:H6.
  { apply (Hstop 5%nat technician e);
      [done|done|repeat constructor; unfold parses; eauto|].
    unfold StreamlitApp.predict_stage. by rewrite H1, H2, H3, H4, H5, H6. }
  exfalso.
  rewrite !Exists_cons, Exists_nil in Hex. unfold parses in Hex.
  destruct Hex as [N|[N|[N|[N|[N|[N|[]]]]]]]; apply N; eauto.
Qed.

Lemma X3_unparsable_field_witness :
  exists (k : nat) (f : pystr) (e : Exn),
    [py "75"; py "1.5"; py "5,0"; py "30"; py "high"; py "85"] !! k
      = Some f /\
    float (Stub.env 0) f = inl e /\
    Forall (parses (Stub.env 0))
      (take k [py "75"; py "1.5"; py "5,0"; py "30"; py "high"; py "85"]) /\
    StreamlitApp.on_predict
      (Stub.loaded (Stub.constant_model (PyInt 2) None) Stub.identity_scaler)
      (Stub.env 0)
      (py "75") (py "1.5") (py "5,0") (py "30") (py "high") (py "85")
      = ([UiError (error_message e)], inr tt).
Proof.
  apply (X3_unparsable_field
           (Stub.loaded (Stub.constant_model (PyInt 2) None)
              Stub.identity_scaler)
           (Stub.env 0)
           (py "75") (py "1.5") (py "5,0") (py "30") (py "high") (py "85")).
  - reflexivity.
  - right. right. left. intros [q Hq]. discriminate.
Defined.

(** X4: with the artifacts loaded and six fields that pass the check and
    parse, the press of the free-text front end does exactly one of four
    things: [scaler.transform] raises and its message is shown;
    [model.predict] raises and its message is shown; the classifier
    returns no prediction and the indexing error is shown; or the first
    prediction is shown as it came, followed by the six texts as typed.
    No exception leaves the press. *)
Theorem X4_text_press_loaded (g : Globals) (env : Env)
    (temp vibration pressure inspection downtime technician : pystr)
    (f1 f2 f3 f4 f5 f6 : Q) (s : Scaler) (model : Model) :
  let inputs :=
    [temp; vibration; pressure; inspection; downtime; technician] in
  let row := [[f1; f2; f3; f4; f5; f6]] in
  let press :=
    StreamlitApp.on_predict g env temp vibration pressure inspection
      downtime technician in
  any StreamlitApp.unfilled inputs = false ->
  float env temp = inr f1 -> float env vibration = inr f2 ->
  float env pressure = inr f3 -> float env inspection = inr f4 ->
  float env downtime = inr f5 -> float env technician = inr f6 ->
  MODEL_LOADED g = true -> g_scaler g = Some s -> g_model g = Some model ->
  match transform s row with
  | inl e => press = ([EvTransform row; UiError (error_message e)], inr tt)
  | inr scaled =>
      match predict model scaled with
      | inl e =>
          press = ([EvTransform row; EvPredict scaled;
                    UiError (error_message e)], inr tt)
      | inr [] =>
          exists e,
            press = ([EvTransform row; EvPredict scaled;
                      UiError (error_message e)], inr tt)
      | inr (code :: _) =>
          press = ([EvTransform row; EvPredict scaled; UiSuccess code;
                    UiInputSummary inputs], inr tt)
      end
  end.
Proof.
  intros inputs row press Hany H1 H2 H3 H4 H5 H6 Hl Hs Hm.
  unfold press, StreamlitApp.on_predict. fold inputs. rewrite Hany.
  rewrite (text_stage_parsed g env _ _ _ _ _ _ f1 f2 f3 f4 f5 f6
             H1 H2 H3 H4 H5 H6).
  cbv zeta. fold row. rewrite Hl, Hs, Hm.
  cbv beta iota zeta
    delta [bind ret try_except emit getitem0 raise deref call].
  destruct (transform s row) as [e|scaled]; [reflexivity|].
  destruct (predict model scaled) as [e|[|code rest]];
    [reflexivity|eexists; reflexivity|reflexivity].
Qed.

Lemma X4_text_press_loaded_witness :
  StreamlitApp.on_predict
    (Stub.loaded (Stub.constant_model (PyInt 2) None) Stub.identity_scaler)
    (Stub.env 0)
    (py "75") (py " 1.5") (py "5.0") (py "30") (py "1000") (py "85")
  = ([EvTransform [[75; 15 # 10; 50 # 10; 30; 1000; 85]]%Q;
      EvPredict [[75; 15 # 10; 50 # 10; 30; 1000; 85]]%Q;
      UiSuccess (PyInt 2);
      UiInputSummary
        [py "75"; py " 1.5"; py "5.0"; py "30"; py "1000"; py "85"]],
     inr tt).
Proof.
  exact (X4_text_press_loaded
           (Stub.loaded (Stub.constant_model (PyInt 2) None)
              Stub.identity_scaler)
           (Stub.env 0)
           (py "75") (py " 1.5") (py "5.0") (py "30") (py "1000") (py "85")
           75 (15 # 10) (50 # 10) 30 1000 85
           Stub.identity_scaler (Stub.constant_model (PyInt 2) None)
           eq_refl eq_refl eq_refl eq_refl eq_refl eq_refl eq_refl
           eq_refl eq_refl eq_refl).
Defined.

(** X5: whatever the artifacts, the environment and the six texts are, a
    press of the free-text front end returns normally, never sleeps,
    never calls [model.predict_proba], and never shows an error together
    with a prediction. *)
Theorem X5_text_press_never (g : Globals) (env : Env)
    (temp vibration pressure inspection downtime technician : pystr) :
  let press :=
    StreamlitApp.on_predict g env temp vibration pressure inspection
      downtime technician in
  outcome press = inr tt /\
  (forall z, EvSleep z ∉ trace press) /\
  (forall x, EvPredictProba x ∉ trace press) /\
  (forall v m, UiSuccess v ∈ trace press -> UiError m ∉ trace press).
Proof.
  intros press. unfold press.
  split; [apply text_press_returns|].
  rewrite text_press_trace.
  set (stage := StreamlitApp.predict_stage g env temp vibration pressure
                  inspection downtime technician).
  assert (Hk : forall ev, ev ∈ trace stage ->
    (exists x, ev = EvTransform x) \/ (exists x, ev = EvPredict x) \/
    ev = EvRandomChoice priorities)
    by (intros ev; apply text_stage_event_kinds).
  destruct (any StreamlitApp.unfilled _).
  - repeat split.
    + intros z H%list_elem_of_singleton. discriminate.
    + intros x H%list_elem_of_singleton. discriminate.
    + intros v m H%list_elem_of_singleton. discriminate.
  - cbv zeta. repeat split.
    + intros z [H|H]%elem_of_app.
      * destruct (Hk _ H) as [[x E]|[[x E]|E]]; discriminate.
      * destruct (outcome stage);
          rewrite ?elem_of_cons, ?elem_of_nil in H;
          intuition discriminate.
    + intros x [H|H]%elem_of_app.
      * destruct (Hk _ H) as [[y E]|[[y E]|E]]; discriminate.
      * destruct (outcome stage);
          rewrite ?elem_of_cons, ?elem_of_nil in H;
          intuition discriminate.
    + intros v m [H|H]%elem_of_app.
      * destruct (Hk _ H) as [[y E]|[[y E]|E]]; discriminate.
      * intros [H'|H']%elem_of_app.
        { destruct (Hk _ H') as [[y E]|[[y E]|E]]; discriminate. }
        destruct (outcome stage);
          rewrite ?elem_of_cons, ?elem_of_nil in H, H';
          intuition discriminate.
Qed.

Lemma X5_text_press_never_witness :
  let press :=
    StreamlitApp.on_predict Stub.demo (Stub.env 1)
      (py "75") (py "1.5") (py "5.0") (py "30") (py "1000") (py "85") in
  UiSuccess (PyStr (py "Medium")) ∈ trace press /\
  forall m, UiError m ∉ trace press.
Proof.
  intros press.
  assert (H : UiSuccess (PyStr (py "Medium")) ∈ trace press)
    by (apply list_elem_of_further, list_elem_of_here).
  split; [exact H|].
  intros m.
  exact (proj2 (proj2 (proj2
           (X5_text_press_never Stub.demo (Stub.env 1)
              (py "75") (py "1.5") (py "5.0") (py "30") (py "1000")
              (py "85"))))
           (PyStr (py "Medium")) m H).
Defined.

(* ===================================================================== *)
(** * A press of the structured front end, case by case *)
(* ===================================================================== *)

(** X6: with the artifacts loaded, the press of the structured front end
    raises exactly when [scaler.transform] raises, [model.predict] raises
    or the classifier returns no prediction, and then nothing is
    rendered and no later call is made; otherwise it renders the
    dashboard for the label of the first prediction, having called
    [predict_proba], when the classifier has it, on the same scaled array
    as [predict].  A failure of the probability lookup never stops the
    press. *)
Theorem X6_modern_press_loaded (g : Globals) (env : Env)
    (t v p i d te : Q) (s : Scaler) (model : Model) :
  let X := ModernApp.input_data t v p i d te in
  let press := ModernApp.on_predict g env t v p i d te in
  MODEL_LOADED g = true -> g_scaler g = Some s -> g_model g = Some model ->
  match transform s X with
  | inl e => press = ([EvSleep 2; EvTransform X], inl e)
  | inr scaled =>
      match predict model scaled with
      | inl e => press = ([EvSleep 2; EvTransform X; EvPredict scaled], inl e)
      | inr [] =>
          exists e,
            press = ([EvSleep 2; EvTransform X; EvPredict scaled], inl e)
      | inr (code :: _) =>
          exists c,
            press =
              (EvSleep 2 :: EvTransform X :: EvPredict scaled ::
                 match predict_proba model with
                 | Some _ => [EvPredictProba scaled]
                 | None => []
                 end,
               inr (ModernApp.render (ModernApp.label_of code) c
                      t v p i d te))
      end
  end.
Proof.
  intros X press Hl Hs Hm.
  destruct (transform s X) as [e|scaled] eqn:Ht.
  - unfold press, ModernApp.on_predict, ModernApp.predict_stage.
    rewrite Hl, Hs. fold X.
    cbv beta iota zeta delta [bind ret emit deref call]. by rewrite Ht.
  - destruct (predict model scaled) as [e|[|code rest]] eqn:Hp.
    + unfold press, ModernApp.on_predict, ModernApp.predict_stage.
      rewrite Hl, Hs, Hm. fold X.
      cbv beta iota zeta delta [bind ret emit deref call].
      by rewrite Ht, Hp.
    + unfold press, ModernApp.on_predict, ModernApp.predict_stage.
      rewrite Hl, Hs, Hm. fold X.
      cbv beta iota zeta delta [bind ret emit deref call getitem0 raise].
      rewrite Ht, Hp. by eexists.
    + unfold press, ModernApp.on_predict.
      rewrite (modern_loaded_stage g env t v p i d te s model scaled code
                 rest Hl Hs Hm Ht Hp).
      cbv beta iota zeta delta [bind ret emit]. rewrite app_nil_r.
      eexists. reflexivity.
Qed.

Lemma X6_modern_press_loaded_witness :
  let failing : Scaler :=
    {| transform := fun _ => inl (Exception (py "X has 6 features")) |} in
  let model := Stub.constant_model (PyInt 2) None in
  ModernApp.on_predict (Stub.loaded model failing) (Stub.env 0)
    75 (3 # 2) 5 30 1000 85
  = ([EvSleep 2;
      EvTransform (ModernApp.input_data 75 (3 # 2) 5 30 1000 85)],
     inl (Exception (py "X has 6 features"))).
Proof.
  intros failing model.
  exact (X6_modern_press_loaded (Stub.loaded model failing) (Stub.env 0)
           75 (3 # 2) 5 30 1000 85 failing model eq_refl eq_refl eq_refl).
Defined.

(** X7: in demo mode a press of the structured front end sleeps, draws
    once, and calls nothing else, even when a classifier or scaler object
    happens to be bound; the dashboard shows the confidence 75, which the
    confidence metric always labels "Medium Confidence". *)
Theorem X7_modern_press_demo (g : Globals) (env : Env) (t v p i d te : Q) :
  MODEL_LOADED g = false ->
  exists l board,
    l ∈ priorities /\
    ModernApp.on_predict g env t v p i d te =
      ([EvSleep 2; EvRandomChoice priorities], inr board) /\
    ModernApp.card_priority board = l /\
    ModernApp.card_confidence board = double_of_Z 75 /\
    ModernApp.confidence_delta board = py "Medium Confidence".
Proof.
  intros Hd.
  destruct (modern_demo_stage g env t v p i d te Hd) as (l & Hl & E).
  exists l, (ModernApp.render l (double_of_Z 75) t v p i d te).
  split; [done|]. split; [|repeat split; reflexivity].
  unfold ModernApp.on_predict. by rewrite E.
Qed.

Lemma X7_modern_press_demo_witness :
  let g :=
    {| g_model := Some (Stub.constant_model (PyInt 2) None);
       g_scaler := None; MODEL_LOADED := false |} in
  exists l board,
    l ∈ priorities /\
    ModernApp.on_predict g (Stub.env 7) 25 (3 # 2) 5 30 1000 85 =
      ([EvSleep 2; EvRandomChoice priorities], inr board) /\
    ModernApp.card_priority board = l /\
    ModernApp.card_confidence board = double_of_Z 75 /\
    ModernApp.confidence_delta board = py "Medium Confidence".
Proof.
  intros g.
  exact (X7_modern_press_demo g (Stub.env 7) 25 (3 # 2) 5 30 1000 85 eq_refl).
Defined.

Lemma high_confidence_iff (l : pystr) (c : double) (t v p i d te : Q) :
  ModernApp.confidence_delta (ModernApp.render l c t v p i d te)
    = py "High Confidence" <-> fgt c (double_of_Z 80) = true.
Proof.
  cbn [ModernApp.render ModernApp.confidence_delta].
  destruct (fgt c (double_of_Z 80)); split; try done; discriminate.
Qed.

(** X8: with the artifacts loaded and a prediction obtained, the
    confidence shown is the double product of 100 and the maximum of the
    row [predict_proba] returned, and the metric reads "High Confidence"
    exactly when that product is greater than 80, in which case some
    returned probability has a product above 80; when the lookup falls
    back, the confidence shown is 85 and the metric always reads "High
    Confidence". *)
Theorem X8_high_confidence (g : Globals) (env : Env) (t v p i d te : Q)
    (s : Scaler) (model : Model) (scaled : matrix)
    (code : PyVal) (rest : list PyVal) :
  MODEL_LOADED g = true -> g_scaler g = Some s -> g_model g = Some model ->
  transform s (ModernApp.input_data t v p i d te) = inr scaled ->
  predict model scaled = inr (code :: rest) ->
  exists board,
    outcome (ModernApp.on_predict g env t v p i d te) = inr board /\
    match proba_row model scaled with
    | Some (q :: row) =>
        exists m,
          is_maximum m (q :: row) /\
          ModernApp.card_confidence board = fmul m (double_of_Z 100) /\
          (ModernApp.confidence_delta board = py "High Confidence" <->
           fgt (fmul m (double_of_Z 100)) (double_of_Z 80) = true) /\
          (ModernApp.confidence_delta board = py "High Confidence" ->
           Exists (fun y =>
                     fgt (fmul y (double_of_Z 100)) (double_of_Z 80) = true)
                  (q :: row))
    | _ =>
        ModernApp.card_confidence board = double_of_Z 85 /\
        ModernApp.confidence_delta board = py "High Confidence"
    end.
Proof.
  intros Hl Hs Hm Ht Hp. unfold ModernApp.on_predict.
  rewrite (modern_loaded_stage g env t v p i d te s model scaled code rest
             Hl Hs Hm Ht Hp).
  eexists. split; [reflexivity|].
  destruct (proba_row model scaled) as [[|q row]|];
    [split; reflexivity| |split; reflexivity].
  exists (max_from q row).
  destruct (max_from_is_maximum q row) as [Hin Hall].
  split; [by split|]. split; [reflexivity|].
  split; [apply high_confidence_iff|].
  intros H%high_confidence_iff. apply Exists_exists.
  by exists (max_from q row).
Qed.

Lemma X8_high_confidence_witness :
  let row := [double_of_Q (1 # 10); double_of_Q (8 # 10); double_of_Q (1 # 10)] in
  let model := Stub.constant_model (PyInt 2) (Some row) in
  let g := Stub.loaded model Stub.identity_scaler in
  exists board,
    outcome (ModernApp.on_predict g (Stub.env 0) 75 (3 # 2) 5 30 1000 85)
      = inr board /\
    exists m,
      is_maximum m row /\
      ModernApp.card_confidence board = fmul m (double_of_Z 100) /\
      (ModernApp.confidence_delta board = py "High Confidence" <->
       fgt (fmul m (double_of_Z 100)) (double_of_Z 80) = true) /\
      (ModernApp.confidence_delta board = py "High Confidence" ->
       Exists (fun y =>
                 fgt (fmul y (double_of_Z 100)) (double_of_Z 80) = true)
              row).
Proof.
  intros row model g.
  exact (X8_high_confidence g (Stub.env 0) 75 (3 # 2) 5 30 1000 85
           Stub.identity_scaler model
           (ModernApp.input_data 75 (3 # 2) 5 30 1000 85) (PyInt 2) []
           eq_refl eq_refl eq_refl eq_refl eq_refl).
Defined.

(** The product is a rounded one: for the row [0.57, 0.43] the confidence
    is the double just below 57, and for a largest probability of 0.8 it
    is exactly 80, which is not above 80. *)
Example scenario_rounded_confidence :
  let press (row : list double) :=
    outcome
      (ModernApp.on_predict
         (Stub.loaded (Stub.constant_model (PyInt 2) (Some row))
            Stub.identity_scaler)
         (Stub.env 0) 75 (3 # 2) 5 30 1000 85) in
  (exists board,
     press [double_of_Q (57 # 100); double_of_Q (43 # 100)] = inr board /\
     ModernApp.card_confidence board
       = S754_finite false 8022036836253695 (-47) /\
     fgt (double_of_Z 57) (ModernApp.card_confidence board) = true) /\
  (exists board,
     press [double_of_Q (8 # 10); double_of_Q (2 # 10)] = inr board /\
     ModernApp.card_confidence board = double_of_Z 80 /\
     ModernApp.confidence_delta board = py "Medium Confidence").
Proof.
  split; eexists; (split; [vm_compute; reflexivity|]);
    split; vm_compute; reflexivity.
Qed.

(** X9: on the dashboard the risk metric reads "High Risk" exactly when
    the label is "High", which is also exactly when the priority metric
    reads "Critical"; the label "Medium", with its risk score 55, is
    shown as "Low Risk" and "Normal". *)
Theorem X9_risk_and_priority_deltas (l : pystr) (c : double)
    (t v p i d te : Q) :
  let board := ModernApp.render l c t v p i d te in
  (ModernApp.risk_delta board = py "High Risk" <-> l = py "High") /\
  (ModernApp.priority_delta board = py "Critical" <-> l = py "High") /\
  (l <> py "High" ->
     ModernApp.risk_delta board = py "Low Risk" /\
     ModernApp.priority_delta board = py "Normal") /\
  (l = py "Medium" ->
     ModernApp.metric_risk_score board = 55%Z /\
     ModernApp.risk_delta board = py "Low Risk").
Proof.
  intros board. unfold board. simpl.
  unfold ModernApp.risk_score, str_eqb.
  assert (HM : py "Medium" <> py "High") by discriminate.
  repeat case_bool_decide; subst; simpl;
    repeat split; try done; try discriminate; intros; congruence.
Qed.

Lemma X9_risk_and_priority_deltas_witness :
  let board :=
    ModernApp.render (py "Medium") (double_of_Z 85) 75 (3 # 2) 5 30 1000 85 in
  ModernApp.metric_risk_score board = 55%Z /\
  ModernApp.risk_delta board = py "Low Risk".
Proof.
  intros board.
  exact (proj2 (proj2 (proj2
           (X9_risk_and_priority_deltas (py "Medium") (double_of_Z 85)
              75 (3 # 2) 5 30 1000 85))) eq_refl).
Defined.






(** X11: the two start-ups agree on the flag, which is true exactly when
    both files load.  The free-text one shows its demo warning exactly
    when the flag is false and keeps [model] bound whenever the model
    file itself loaded; the structured one shows nothing and, when the
    flag is false, has reset both names to None. *)
Theorem X11_startups (fs : Storage) :
  exists gm gt : Globals,
    ModernApp.startup fs = ([], inr gm) /\
    StreamlitApp.startup fs =
      (if MODEL_LOADED gt then []
       else [UiWarning StreamlitApp.demo_warning], inr gt) /\
    MODEL_LOADED gm = MODEL_LOADED gt /\
    (MODEL_LOADED gt = true <->
       exists m s, model_pkl fs = inr m /\ scaler_pkl fs = inr s) /\
    (MODEL_LOADED gt = true -> gm = gt /\
       exists m s, g_model gt = Some m /\ g_scaler gt = Some s) /\
    (MODEL_LOADED gm = false -> g_model gm = None /\ g_scaler gm = None) /\
    (forall m, g_model gt = Some m <-> model_pkl fs = inr m).
Proof.
  unfold ModernApp.startup, ModernApp.load_models, StreamlitApp.startup.
  destruct (model_pkl fs) as [e|model], (scaler_pkl fs) as [e'|scaler];
    simpl;
    [exists Stub.demo, Stub.demo
    |exists Stub.demo, Stub.demo
    |exists Stub.demo,
       {| g_model := Some model; g_scaler := None; MODEL_LOADED := false |}
    |exists (Stub.loaded model scaler), (Stub.loaded model scaler)];
    (split; [reflexivity|]); (split; [reflexivity|]); simpl;
    repeat split; try done; try discriminate;
    try (intros (m & s & ? & ?); discriminate);
    try (intros [= <-]; done); try (intros ?; congruence); eauto.
Qed.

Lemma X11_startups_witness :
  let model := Stub.constant_model (PyInt 0) None in
  exists gt,
    StreamlitApp.startup (Stub.corrupt_scaler model) =
      ([UiWarning StreamlitApp.demo_warning], inr gt) /\
    g_model gt = Some model.
Proof.
  intros model.
  destruct (X11_startups (Stub.corrupt_scaler model))
    as (gm & gt & _ & Ht & _ & Hflag & _ & _ & Hmodel).
  exists gt.
  assert (Hg : g_model gt = Some model) by (by apply Hmodel).
  split; [|exact Hg].
  rewrite Ht. destruct (MODEL_LOADED gt) eqn:E; [|reflexivity].
  exfalso. destruct (proj1 Hflag eq_refl) as (m & s & _ & Hs).
  discriminate.
Defined.

(** X12: the status line of the sidebar tells the truth about the next
    press: after start-up it reads "Online" exactly when both files
    loaded, which is exactly when a press hands the six readings to
    [scaler.transform]; it reads "Demo Mode" exactly when a press does
    nothing but sleep and draw a label. *)
Theorem X12_status_badge (fs : Storage) (env : Env) (t v p i d te : Q) :
  exists g : Globals,
    outcome (ModernApp.startup fs) = inr g /\
    let press := ModernApp.on_predict g env t v p i d te in
    (ModernPage.status_badge g = ModernPage.online_badge <->
       exists m s, model_pkl fs = inr m /\ scaler_pkl fs = inr s) /\
    (ModernPage.status_badge g = ModernPage.online_badge <->
       EvTransform (ModernApp.input_data t v p i d te) ∈ trace press) /\
    (ModernPage.status_badge g = ModernPage.demo_badge <->
       trace press = [EvSleep 2; EvRandomChoice priorities]).
Proof.
  assert (Hdemo : forall g : Globals, MODEL_LOADED g = false ->
    trace (ModernApp.on_predict g env t v p i d te)
      = [EvSleep 2; EvRandomChoice priorities]).
  { intros g Hd. rewrite modern_press_trace.
    destruct (modern_demo_stage g env t v p i d te Hd) as (l & _ & ->).
    reflexivity. }
  assert (Hload : forall (m : Model) (s : Scaler),
    EvTransform (ModernApp.input_data t v p i d te)
      ∈ trace (ModernApp.on_predict
                 {| g_model := Some m; g_scaler := Some s;
                    MODEL_LOADED := true |} env t v p i d te)).
  { intros m s. rewrite modern_press_trace.
    apply list_elem_of_further. unfold ModernApp.predict_stage.
    cbn [MODEL_LOADED].
    by eapply (loaded_branch_transform _ _ _ s). }
  assert (Hne : ModernPage.online_badge <> ModernPage.demo_badge)
    by discriminate.
  unfold ModernApp.startup, ModernApp.load_models.
  destruct (model_pkl fs) as [e|model], (scaler_pkl fs) as [e'|scaler];
    simpl; eexists; (split; [reflexivity|]);
    unfold ModernPage.status_badge; simpl.
  1-3: rewrite Hdemo by reflexivity;
    (split; [split; [done|intros (m & s & ? & ?); discriminate]|]);
    (split; [split; [done|]|done]);
    rewrite !elem_of_cons, elem_of_nil; intuition discriminate.
  split; [split; [intros _; by exists model, scaler|done]|].
  split; [split; [intros _; apply Hload|done]|].
  split; [intros H; by destruct Hne|].
  intros H. pose proof (Hload model scaler) as Hin.
  rewrite H in Hin. rewrite !elem_of_cons, elem_of_nil in Hin.
  intuition discriminate.
Qed.

(* ===================================================================== *)
(** * The two front ends side by side *)
(* ===================================================================== *)

Lemma text_success_inv (g : Globals) (env : Env)
    (temp vibration pressure inspection downtime technician : pystr)
    (code : PyVal) :
  UiSuccess code ∈ trace (StreamlitApp.on_predict g env temp vibration
                            pressure inspection downtime technician) ->
  outcome (StreamlitApp.predict_stage g env temp vibration pressure
             inspection downtime technician) = inr code.
Proof.
  rewrite text_press_trace.
  destruct (any StreamlitApp.unfilled _).
  - intros H%list_elem_of_singleton. discriminate.
  - cbv zeta. intros [H|H]%elem_of_app.
    + destruct (text_stage_event_kinds _ _ _ _ _ _ _ _ _ H)
        as [[x E]|[[x E]|E]]; discriminate.
    + destruct (outcome _) as [e|v];
        rewrite ?elem_of_cons, ?elem_of_nil in H.
      * destruct H as [H|[]]. discriminate.
      * destruct H as [[= ->]|[H|[]]]; [done|discriminate].
Qed.

(** X13: the two front ends agree on the classifier's answer.  Whenever
    the free-text front end, with the artifacts loaded, displays a
    prediction, the structured front end given the same artifacts and the
    six numbers those texts parse to renders a dashboard whose priority
    is the label of that very prediction. *)
Theorem X13_front_ends_agree (g : Globals) (env env' : Env)
    (temp vibration pressure inspection downtime technician : pystr)
    (code : PyVal) :
  MODEL_LOADED g = true ->
  UiSuccess code ∈ trace (StreamlitApp.on_predict g env temp vibration
                            pressure inspection downtime technician) ->
  exists (f1 f2 f3 f4 f5 f6 : Q) (board : ModernApp.Dashboard),
    float env temp = inr f1 /\ float env vibration = inr f2 /\
    float env pressure = inr f3 /\ float env inspection = inr f4 /\
    float env downtime = inr f5 /\ float env technician = inr f6 /\
    outcome (ModernApp.on_predict g env' f1 f2 f3 f4 f5 f6) = inr board /\
    ModernApp.card_priority board = ModernApp.label_of code.
Proof.
  intros Hl H. apply text_success_inv in H.
  destruct (text_loaded_inv g env _ _ _ _ _ _ code Hl H)
    as (f1 & f2 & f3 & f4 & f5 & f6 & s & model & scaled & rest
        & H1 & H2 & H3 & H4 & H5 & H6 & Hs & Hm & Ht & Hp).
  exists f1, f2, f3, f4, f5, f6.
  unfold ModernApp.on_predict.
  rewrite (modern_loaded_stage g env' f1 f2 f3 f4 f5 f6 s model scaled code
             rest Hl Hs Hm Ht Hp).
  eexists. repeat (split; [done|]). split; reflexivity.
Qed.

Lemma X13_front_ends_agree_witness :
  let g :=
    Stub.loaded (Stub.constant_model (PyInt 2) None) Stub.identity_scaler in
  exists (f1 f2 f3 f4 f5 f6 : Q) (board : ModernApp.Dashboard),
    float (Stub.env 0) (py "75") = inr f1 /\
    float (Stub.env 0) (py "1.5") = inr f2 /\
    float (Stub.env 0) (py "5.0") = inr f3 /\
    float (Stub.env 0) (py "30") = inr f4 /\
    float (Stub.env 0) (py "1000") = inr f5 /\
    float (Stub.env 0) (py "85") = inr f6 /\
    outcome (ModernApp.on_predict g (Stub.env 3) f1 f2 f3 f4 f5 f6)
      = inr board /\
    ModernApp.card_priority board = ModernApp.label_of (PyInt 2).
Proof.
  intros g.
  apply (X13_front_ends_agree g (Stub.env 0) (Stub.env 3)
           (py "75") (py "1.5") (py "5.0") (py "30") (py "1000") (py "85")
           (PyInt 2) eq_refl).
  apply list_elem_of_further, list_elem_of_further, list_elem_of_here.
Defined.

(** X14: what the dashboard shows for an integer class code: code 2 gives
    the risk score 85 and "Immediate action required", code 0 gives 25
    and "Monitor regularly", and every other integer, having become
    "Medium", gives 55 and "Schedule maintenance"; the default
    recommendation is never reached through an integer code other
    than 0. *)
Theorem X14_integer_code_dashboard (z : Z) (c : double)
    (t v p i d te : Q) :
  let board :=
    ModernApp.render (ModernApp.label_of (PyInt z)) c t v p i d te in
  (ModernApp.metric_risk_score board,
   ModernApp.card_recommendation board) =
    if (z =? 2)%Z then (85%Z, py "Immediate action required")
    else if (z =? 0)%Z then (25%Z, py "Monitor regularly")
    else (55%Z, py "Schedule maintenance").
Proof.
  intros board. unfold board. simpl.
  unfold ModernApp.label_of, dict_get. rewrite prediction_map_lookup.
  destruct (Z.eqb_spec z 2), (Z.eqb_spec z 0);
    repeat case_decide; subst; try lia; reflexivity.
Qed.
